(** * jwtazure: the Azure AD bearer-token validator of [pkg/azure/azure.go]

    A shallow embedding of the validation pipeline (bearer-token
    extraction, the dual key-set resolver, [validateToken], claims
    normalisation, the constructor and the HTTP middleware) together
    with the properties stated about it.

    Go strings are byte sequences: they are modelled by [string], whose
    characters are the 256 values of [ascii].  A Go [(value, error)]
    pair is a [result]; Go [error] values are modelled by [error], which
    keeps the message and the chain built by the [%w] verb. *)

From Stdlib Require Import String Ascii List QArith Bool Lia.
From stdpp Require Import base option list strings gmap.

Local Open Scope nat_scope.
Set Warnings "-register-all".

(** ** Go values shared by every part *)

(** A Go error: [errors.New msg] (also [fmt.Errorf] without [%w]), or
    [fmt.Errorf] with [%w] operands ([Unwrap] returns those operands). *)
Inductive error : Type :=
| errorString (msg : string)
| wrapErrors (msg : string) (inner : list error).

(** [err.Error()]. *)
Definition Error (e : error) : string :=
  match e with
  | errorString msg => msg
  | wrapErrors msg _ => msg
  end.

(** [err == target] on error values.  The sentinel errors of the
    packages involved have pairwise distinct messages, so comparing the
    values stands for comparing the pointers. *)
Fixpoint error_eqb (a b : error) {struct a} : bool :=
  match a, b with
  | errorString m, errorString n => String.eqb m n
  | wrapErrors m l, wrapErrors n k =>
      String.eqb m n &&
      (fix all2 (l k : list error) {struct l} : bool :=
         match l, k with
         | [], [] => true
         | x :: l', y :: k' => error_eqb x y && all2 l' k'
         | _, _ => false
         end) l k
  | _, _ => false
  end.

(** [errors.Is err target]: [err], or an error in its [Unwrap] tree, is
    [target]. *)
Fixpoint errors_Is (err target : error) {struct err} : bool :=
  error_eqb err target ||
  match err with
  | errorString _ => false
  | wrapErrors _ inner => existsb (fun e => errors_Is e target) inner
  end.

(** A Go [(T, error)] return value. *)
Inductive result (A : Type) : Type :=
| Ok (a : A)
| Err (e : error).
Arguments Ok {A} a.
Arguments Err {A} e.

Definition is_Ok {A} (r : result A) : bool :=
  match r with Ok _ => true | Err _ => false end.

(** ** Package [strings] and byte slicing *)

Module GoStrings.

(** [s[:n]] for [n <= len(s)]. *)
Fixpoint prefix (n : nat) (s : string) : string :=
  match n, s with
  | S n', String c s' => String c (prefix n' s')
  | _, _ => EmptyString
  end.

(** [s[n:]] for [n <= len(s)]. *)
Fixpoint suffix (n : nat) (s : string) : string :=
  match n, s with
  | S n', String _ s' => suffix n' s'
  | _, _ => s
  end.

Definition is_upper (c : ascii) : bool :=
  (65 <=? nat_of_ascii c) && (nat_of_ascii c <=? 90).

(** The ASCII letter folded to lower case; other bytes unchanged. *)
Definition fold_byte (c : ascii) : ascii :=
  if is_upper c then ascii_of_nat (nat_of_ascii c + 32) else c.

(** [strings.EqualFold s t] where one operand is made of ASCII
    characters other than k, K, s and S.  Go folds by Unicode simple
    case folding; the only non-ASCII runes that fold to an ASCII
    character are U+212A (to k) and U+017F (to s), so against such an
    operand the comparison is byte-wise equality up to ASCII case, and
    any byte of value 128 or more makes it false. *)
Fixpoint EqualFold (s t : string) : bool :=
  match s, t with
  | EmptyString, EmptyString => true
  | String a s', String b t' =>
      Ascii.eqb (fold_byte a) (fold_byte b) && EqualFold s' t'
  | _, _ => false
  end.

(** [strings.Join elems sep]. *)
Fixpoint Join (elems : list string) (sep : string) : string :=
  match elems with
  | [] => ""
  | [x] => x
  | x :: rest => x +:+ sep +:+ Join rest sep
  end.

(** [strings.Cut s sep] for the one-byte separator [sep]: the text
    before and after its first occurrence and [true], or [s], the empty
    string and [false] when there is none. *)
Fixpoint Cut (s : string) (sep : ascii) : string * string * bool :=
  match s with
  | EmptyString => ("", "", false)
  | String c s' =>
      if Ascii.eqb c sep then ("", s', true)
      else
        let '(before, after, found) := Cut s' sep in
        if found then (String c before, after, true) else (s, "", false)
  end.

End GoStrings.

(** ** The sentinel errors of the package *)

Definition ErrMissingAuthHeader : error :=
  errorString "authorization header is required".
Definition ErrInvalidAuthHeaderFormat : error :=
  errorString "authorization header format must be 'Bearer {token}'".
Definition ErrTokenParsingFailed : error :=
  errorString "failed to parse token".
Definition ErrTokenInvalid : error :=
  errorString "token is invalid (possibly expired or not yet active)".
Definition ErrInvalidIssuer : error :=
  errorString "invalid token issuer".
Definition ErrInvalidAudience : error :=
  errorString "invalid token audience".

(** ** [net/http] *)

Module http.

(** [http.Header] is [map[string][]string]. *)
Abbreviation Header := (gmap string (list string)).

(** [h.Get(key)] for a key already in canonical form: the first value
    stored under the key, or the empty string. *)
Definition Header_Get (h : Header) (key : string) : string :=
  match h !! key with
  | Some (v :: _) => v
  | _ => ""
  end.

Definition StatusUnauthorized : nat := 401.

End http.

(** ** Values decoded by [encoding/json] into [interface{}] *)

Inductive any : Type :=
| ANil
| ABool (b : bool)
| AFloat64 (x : Q)
| AString (s : string)
| ASlice (elems : list any)
| AMap (fields : list (string * any)).

(** ** Package [github.com/golang-jwt/jwt/v5] (v5.2.2, as pinned by go.mod)

    The parts of the library that [azure.go] calls, following
    [errors.go], [map_claims.go], [token.go] and [parser.go] of that
    release.  The model keeps the order of the parser's checks, where
    the key function and [Verify] are called, and which sentinel each
    failure wraps. *)

Module jwt.

Definition ErrTokenMalformed : error := errorString "token is malformed".
Definition ErrTokenUnverifiable : error := errorString "token is unverifiable".
Definition ErrTokenSignatureInvalid : error :=
  errorString "token signature is invalid".
Definition ErrTokenInvalidClaims : error :=
  errorString "token has invalid claims".
Definition ErrInvalidType : error := errorString "invalid type for claim".

(** [newError message err more...]: [fmt.Errorf] over the format
    ["%w: %s"] (or ["%w"] for an empty message) extended by [": %w"] for
    each further error. *)
Definition newError (message : string) (err : error) (more : list error)
  : error :=
  let head :=
    if String.eqb message "" then Error err
    else Error err +:+ ": " +:+ message in
  wrapErrors (fold_left (fun acc e => acc +:+ ": " +:+ Error e) more head)
             (err :: more).

(** [jwt.MapClaims] is [map[string]interface{}]; [jwt.ClaimStrings] is
    [[]string]. *)
Abbreviation MapClaims := (gmap string any).
Abbreviation ClaimStrings := (list string).

(** [MapClaims.parseString]. *)
Definition parseString (m : MapClaims) (key : string) : string * option error :=
  match m !! key with
  | None => ("", None)
  | Some (AString iss) => (iss, None)
  | Some _ => ("", Some (newError (key +:+ " is invalid") ErrInvalidType []))
  end.

(** The loop of [MapClaims.parseClaimsString] over a [[]interface{}]:
    [cs] is the slice built so far. *)
Fixpoint parseClaimsString_loop (key : string) (v : list any) (cs : list string)
  : ClaimStrings * option error :=
  match v with
  | [] => (cs, None)
  | AString vs :: rest => parseClaimsString_loop key rest (cs ++ [vs])
  | _ :: _ => ([], Some (newError (key +:+ " is invalid") ErrInvalidType []))
  end.

(** [MapClaims.parseClaimsString]: a JSON-decoded claim is never a
    [[]string], so that case of the type switch is left out. *)
Definition parseClaimsString (m : MapClaims) (key : string)
  : ClaimStrings * option error :=
  match m !! key with
  | Some (AString v) => ([v], None)
  | Some (ASlice v) => parseClaimsString_loop key v []
  | _ => ([], None)
  end.

Definition GetIssuer (m : MapClaims) := parseString m "iss".
Definition GetSubject (m : MapClaims) := parseString m "sub".
Definition GetAudience (m : MapClaims) := parseClaimsString m "aud".

(** [jwt.Token].  [Method] is the signing method looked up from the
    header, identified by its [Alg()] name; the empty string stands for
    the nil method of a token whose header was not looked up yet. *)
Record Token : Type := mkToken {
  Raw : string;
  Method : string;
  Header : gmap string any;
  Claims : MapClaims;
  Signature : string;
  Valid : bool
}.

(** The signing methods the library registers in its [init] functions. *)
Definition signingMethods : list string :=
  ["ES256"; "ES384"; "ES512"; "EdDSA"; "HS256"; "HS384"; "HS512"; "none";
   "PS256"; "PS384"; "PS512"; "RS256"; "RS384"; "RS512"].

(** [jwt.GetSigningMethod alg]. *)
Definition GetSigningMethod (alg : string) : option string :=
  if existsb (String.eqb alg) signingMethods then Some alg else None.

(** [splitToken token]: the three segments of a string with exactly two
    delimiters, and whether it has that form. *)
Definition splitToken (token : string) : list string * bool :=
  let '(header, remain, ok) := GoStrings.Cut token "." in
  if negb ok then ([], false)
  else
    let '(claims, remain, ok) := GoStrings.Cut remain "." in
    if negb ok then ([], false)
    else
      let '(signature, _, unexpected) := GoStrings.Cut remain "." in
      if unexpected then ([], false)
      else ([header; claims; signature], true).

(** What [ParseUnverified] and [ParseWithClaims] return: with a nil
    error the value, otherwise the error and the token built so far
    (nil when the string does not have three segments). *)
Inductive parsed (A : Type) : Type :=
| Parsed (a : A)
| Failed (token : option Token) (err : error).
Arguments Parsed {A} a.
Arguments Failed {A} token err.

End jwt.

(** ** Data of package [azure] *)

(** [UserClaims]. *)
Record UserClaims : Type := mkUserClaims {
  Subject : string;
  Name : string;
  PreferredUser : string;
  TenantID : string;
  Audience : jwt.ClaimStrings;
  Issuer : string;
  Scopes : string;
  Roles : list string;
  RawClaims : jwt.MapClaims
}.

(** The part of [*http.Request] the middleware reads or sets.  The
    request context is represented by the one slot the package uses,
    the value stored under [userClaimsKey{}]. *)
Record Request : Type := mkRequest {
  ReqHeader : http.Header;
  RemoteAddr : string;
  RequestURI : string;
  ctxUserClaims : option UserClaims
}.

(** [r.WithContext(context.WithValue(r.Context(), userClaimsKey{}, claims))]. *)
Definition WithContext (r : Request) (claims : UserClaims) : Request :=
  {| ReqHeader := ReqHeader r; RemoteAddr := RemoteAddr r;
     RequestURI := RequestURI r; ctxUserClaims := Some claims |}.

(** [GetClaimsFromContext], on the context of a request. *)
Definition GetClaimsFromContext (r : Request) : option UserClaims * bool :=
  match ctxUserClaims r with
  | Some claims => (Some claims, true)
  | None => (None, false)
  end.

(** The value built by [problem.FromError(err, status, problem.WithInstance(r))]
    of [github.com/norlis/httpgate]: the error it carries, the status
    code and the request it refers to. *)
Record Problem : Type := mkProblem {
  problemErr : error;
  problemStatus : nat;
  problemInstance : string
}.

Definition problem_FromError (err : error) (status : nat) (r : Request)
  : Problem :=
  {| problemErr := err; problemStatus := status;
     problemInstance := RequestURI r |}.

(** A [*zap.Logger], by an identifier. *)
Definition Logger : Type := nat.

(** The two key sets of a [Validator]. *)
Inductive KeySet : Type := JwksV1 | JwksV2.

(** ** Effects

    What the code does besides returning: calls of the two key sets'
    [Keyfunc], calls of the signing method's [Verify], log records and
    the response written.  A computation returns its value and the
    events in the order they happened. *)

Inductive Event : Type :=
| KeyfuncCalled (ks : KeySet) (token : jwt.Token)
| VerifyCalled (alg : string) (signingString signature : string)
| LoggerWarn (logger : option Logger) (msg : string) (err : error)
             (remote_addr : string)
| LoggerInfo (logger : option Logger) (msg : string) (claims : UserClaims)
| RespondError (p : Problem).

Definition Eff (A : Type) : Type := A * list Event.

Definition ret {A} (a : A) : Eff A := (a, []).

Definition bind {A B} (m : Eff A) (f : A → Eff B) : Eff B :=
  let '(a, evs1) := m in
  let '(b, evs2) := f a in
  (b, evs1 ++ evs2).

Definition emit (e : Event) : Eff unit := (tt, [e]).

Declare Scope eff_scope.
Delimit Scope eff_scope with eff.
Notation "x <- m ;; k" := (bind m (fun x => k))
  (at level 100, m at next level, right associativity) : eff_scope.
Notation "m ;;; k" := (bind m (fun _ => k))
  (at level 100, right associativity) : eff_scope.

(** The value and the events of a computation. *)
Definition value {A} (m : Eff A) : A := fst m.
Definition events {A} (m : Eff A) : list Event := snd m.

Definition is_KeyfuncCalled (e : Event) : bool :=
  match e with KeyfuncCalled _ _ => true | _ => false end.

Definition is_VerifyCalled (e : Event) : bool :=
  match e with VerifyCalled _ _ _ => true | _ => false end.

Local Open Scope eff_scope.

Section Pipeline.

(** The verification key a key set resolves a token to
    (the [interface{}] returned by a [jwt.Keyfunc]). *)
Context {Key : Type}.

(** Operations of other packages, taken as they are:
    - [DecodeSegment]: [Parser.DecodeSegment], base64url decoding;
    - [json_Unmarshal]: [json.Unmarshal] into a [map[string]interface{}];
    - [Verify]: [SigningMethod.Verify] of the method named by its first
      argument, nil ([None]) when the signature verifies;
    - [Validate]: [Validator.Validate] of the parser's default claims
      validator, which checks the time claims against the clock;
    - [keyfunc_NewDefaultCtx]: [keyfunc.NewDefaultCtx(ctx, urls)], whose
      result is used through its [Keyfunc] method;
    - [zap_NewProduction]: [zap.NewProduction()]. *)
Variable DecodeSegment : string → result string.
Variable json_Unmarshal : string → result (gmap string any).
Variable Verify : string → string → string → Key → option error.
Variable Validate : jwt.MapClaims → option error.
Variable keyfunc_NewDefaultCtx : list string → result (jwt.Token → result Key).
Variable zap_NewProduction : result Logger.

(** *** [jwt.Parser] *)

(** [Parser.ParseUnverified], for a [MapClaims] destination and without
    [UseNumber]. *)
Definition jwt_ParseUnverified (tokenString : string)
  : jwt.parsed (jwt.Token * list string) :=
  let '(parts, ok) := jwt.splitToken tokenString in
  if negb ok then
    jwt.Failed None
      (jwt.newError "token contains an invalid number of segments"
         jwt.ErrTokenMalformed [])
  else
    let token := jwt.mkToken tokenString "" ∅ ∅ "" false in
    match DecodeSegment (nth 0 parts "") with
    | Err err =>
        jwt.Failed (Some token)
          (jwt.newError "could not base64 decode header"
             jwt.ErrTokenMalformed [err])
    | Ok headerBytes =>
    match json_Unmarshal headerBytes with
    | Err err =>
        jwt.Failed (Some token)
          (jwt.newError "could not JSON decode header"
             jwt.ErrTokenMalformed [err])
    | Ok header =>
    let token := jwt.mkToken tokenString "" header ∅ "" false in
    match DecodeSegment (nth 1 parts "") with
    | Err err =>
        jwt.Failed (Some token)
          (jwt.newError "could not base64 decode claim"
             jwt.ErrTokenMalformed [err])
    | Ok claimBytes =>
    match json_Unmarshal claimBytes with
    | Err err =>
        jwt.Failed (Some token)
          (jwt.newError "could not JSON decode claim"
             jwt.ErrTokenMalformed [err])
    | Ok claims =>
    let token := jwt.mkToken tokenString "" header claims "" false in
    match header !! "alg" with
    | Some (AString method) =>
        match jwt.GetSigningMethod method with
        | None =>
            jwt.Failed (Some token)
              (jwt.newError "signing method (alg) is unavailable"
                 jwt.ErrTokenUnverifiable [])
        | Some m =>
            jwt.Parsed (jwt.mkToken tokenString m header claims "" false, parts)
        end
    | _ =>
        jwt.Failed (Some token)
          (jwt.newError "signing method (alg) is unspecified"
             jwt.ErrTokenUnverifiable [])
    end end end end end.

(** [jwt.ParseWithClaims(tokenString, &mapClaims, keyFunc,
    jwt.WithValidMethods(validMethods))]: a parser with that one option
    runs [Parser.ParseWithClaims].  [keyFunc] is not nil and returns a
    single key.  The claims read into [mapClaims] are the [Claims] of
    the token returned. *)
Definition jwt_ParseWithClaims (tokenString : string)
    (keyFunc : jwt.Token → Eff (result Key)) (validMethods : list string)
  : Eff (jwt.parsed jwt.Token) :=
  match jwt_ParseUnverified tokenString with
  | jwt.Failed token err => ret (jwt.Failed token err)
  | jwt.Parsed (token, parts) =>
  let alg := jwt.Method token in
  if negb (existsb (fun m => String.eqb m alg) validMethods) then
    ret (jwt.Failed (Some token)
           (jwt.newError ("signing method " +:+ alg +:+ " is invalid")
              jwt.ErrTokenSignatureInvalid []))
  else
    match DecodeSegment (nth 2 parts "") with
    | Err err =>
        ret (jwt.Failed (Some token)
               (jwt.newError "could not base64 decode signature"
                  jwt.ErrTokenMalformed [err]))
    | Ok signature =>
    let token :=
      jwt.mkToken (jwt.Raw token) (jwt.Method token) (jwt.Header token)
        (jwt.Claims token) signature false in
    let text := GoStrings.Join (firstn 2 parts) "." in
    got <- keyFunc token ;;
    match got with
    | Err err =>
        ret (jwt.Failed (Some token)
               (jwt.newError "error while executing keyfunc"
                  jwt.ErrTokenUnverifiable [err]))
    | Ok have =>
    emit (VerifyCalled alg text signature) ;;;
    match Verify alg text signature have with
    | Some err =>
        ret (jwt.Failed (Some token)
               (jwt.newError "" jwt.ErrTokenSignatureInvalid [err]))
    | None =>
    match Validate (jwt.Claims token) with
    | Some err =>
        ret (jwt.Failed (Some token)
               (jwt.newError "" jwt.ErrTokenInvalidClaims [err]))
    | None =>
        ret (jwt.Parsed
               (jwt.mkToken (jwt.Raw token) (jwt.Method token)
                  (jwt.Header token) (jwt.Claims token) signature true))
    end end end end
  end.

(** *** [Validator] and its options *)

Record Validator : Type := mkValidator {
  jwksV1 : jwt.Token → result Key;
  jwksV2 : jwt.Token → result Key;
  validIssuers : list string;
  validAudiences : list string;
  isAudienceCheckEnabled : bool;
  logger : option Logger
}.

(** The three [Option] closures the package exports.  [WithLogger] may
    be given a nil logger. *)
Inductive Option : Type :=
| WithAudiences (audiences : list string)
| WithoutAudienceValidation
| WithLogger (lg : option Logger).

(** [opt(v)]. *)
Definition applyOption (opt : Option) (v : Validator) : Validator :=
  match opt with
  | WithAudiences audiences =>
      mkValidator (jwksV1 v) (jwksV2 v) (validIssuers v) audiences
        (isAudienceCheckEnabled v) (logger v)
  | WithoutAudienceValidation =>
      mkValidator (jwksV1 v) (jwksV2 v) (validIssuers v) (validAudiences v)
        false (logger v)
  | WithLogger lg =>
      mkValidator (jwksV1 v) (jwksV2 v) (validIssuers v) (validAudiences v)
        (isAudienceCheckEnabled v) lg
  end.

(** [for _, opt := range opts { opt(validator) }]. *)
Definition applyOptions (opts : list Option) (v : Validator) : Validator :=
  fold_left (fun v opt => applyOption opt v) opts v.

(** [NewValidator(ctx, tenantID, opts...)]; [ctx] only reaches
    [keyfunc.NewDefaultCtx]. *)
Definition NewValidator (tenantID : string) (opts : list Option)
  : result Validator :=
  if String.eqb tenantID "" then
    Err (errorString "el ID de inquilino (tenantID) no puede estar vacío")
  else
    let jwksV1URL :=
      "https://login.microsoftonline.com/" +:+ tenantID +:+ "/discovery/keys" in
    let jwksV2URL :=
      "https://login.microsoftonline.com/" +:+ tenantID
        +:+ "/discovery/v2.0/keys" in
    match keyfunc_NewDefaultCtx [jwksV1URL] with
    | Err err =>
        Err (wrapErrors ("fallo al crear el JWKS para v1: " +:+ Error err) [err])
    | Ok jwksV1' =>
    match keyfunc_NewDefaultCtx [jwksV2URL] with
    | Err err =>
        Err (wrapErrors ("fallo al crear el JWKS para v2: " +:+ Error err) [err])
    | Ok jwksV2' =>
    let validator :=
      mkValidator jwksV1' jwksV2'
        ["https://sts.windows.net/" +:+ tenantID +:+ "/";
         "https://login.microsoftonline.com/" +:+ tenantID +:+ "/v2.0"]
        [] true None in
    let validator := applyOptions opts validator in
    let withLogger : result Validator :=
      match logger validator with
      | Some _ => Ok validator
      | None =>
          match zap_NewProduction with
          | Err err =>
              Err (wrapErrors
                     ("fallo al crear el logger por defecto: " +:+ Error err)
                     [err])
          | Ok prodLogger =>
              Ok (mkValidator (jwksV1 validator) (jwksV2 validator)
                    (validIssuers validator) (validAudiences validator)
                    (isAudienceCheckEnabled validator) (Some prodLogger))
          end
      end in
    match withLogger with
    | Err err => Err err
    | Ok validator =>
        if isAudienceCheckEnabled validator
           && (length (validAudiences validator) =? 0)
        then
          Err (errorString
                 "la validación de audiencia está habilitada pero no se proporcionaron audiencias válidas")
        else Ok validator
    end
    end end.

(** *** Bearer-token extraction *)

(** [extractBearerToken(r)]. *)
Definition extractBearerToken (r : Request) : result string :=
  let authHeader := http.Header_Get (ReqHeader r) "Authorization" in
  if String.eqb authHeader "" then Err ErrMissingAuthHeader
  else if (7 <? String.length authHeader)
          && GoStrings.EqualFold (GoStrings.prefix 7 authHeader) "Bearer "
  then Ok (GoStrings.suffix 7 authHeader)
  else Err ErrInvalidAuthHeaderFormat.

(** *** Key resolution *)

(** [v.keyFunc(token)]. *)
Definition keyFunc (v : Validator) (token : jwt.Token) : Eff (result Key) :=
  emit (KeyfuncCalled JwksV2 token) ;;;
  match jwksV2 v token with
  | Ok key => ret (Ok key)
  | Err _ =>
      emit (KeyfuncCalled JwksV1 token) ;;;
      ret (jwksV1 v token)
  end.

(** *** Claims *)

(** [slices.Contains(s, v)] on strings. *)
Definition slices_Contains (s : list string) (v : string) : bool :=
  existsb (fun x => String.eqb x v) s.

(** [audiencesIntersect(validAudiences, tokenAudiences)]. *)
Fixpoint audiencesIntersect (validAudiences : list string)
    (tokenAudiences : jwt.ClaimStrings) : bool :=
  match tokenAudiences with
  | [] => false
  | tokenAud :: rest =>
      if slices_Contains validAudiences tokenAud then true
      else audiencesIntersect validAudiences rest
  end.

(** [x, _ := mapClaims[key].(string)]. *)
Definition stringClaim (mapClaims : jwt.MapClaims) (key : string) : string :=
  match mapClaims !! key with
  | Some (AString s) => s
  | _ => ""
  end.

(** The loop of [buildUserClaims] over [rolesInterfaces], from the
    slice [roles] built so far. *)
Fixpoint appendRoles (rolesInterfaces : list any) (roles : list string)
  : list string :=
  match rolesInterfaces with
  | [] => roles
  | AString role :: rest => appendRoles rest (roles ++ [role])
  | _ :: rest => appendRoles rest roles
  end.

(** [v.buildUserClaims(mapClaims)]. *)
Definition buildUserClaims (v : Validator) (mapClaims : jwt.MapClaims)
  : UserClaims :=
  let aud := fst (jwt.GetAudience mapClaims) in
  let iss := fst (jwt.GetIssuer mapClaims) in
  let sub := fst (jwt.GetSubject mapClaims) in
  let roles :=
    match mapClaims !! "roles" with
    | Some (ASlice rolesInterfaces) => appendRoles rolesInterfaces []
    | _ => []
    end in
  let name := stringClaim mapClaims "name" in
  let preferredUser := stringClaim mapClaims "preferred_username" in
  let tenantID := stringClaim mapClaims "tid" in
  let scopes := stringClaim mapClaims "scp" in
  mkUserClaims sub name preferredUser tenantID aud iss scopes roles mapClaims.

(** *** Validation *)

(** [v.validateToken(tokenString)]. *)
Definition validateToken (v : Validator) (tokenString : string)
  : Eff (result UserClaims) :=
  parsed <- jwt_ParseWithClaims tokenString (keyFunc v) ["RS256"] ;;
  match parsed with
  | jwt.Failed _ err =>
      ret (Err (wrapErrors
                  (Error ErrTokenParsingFailed +:+ ": " +:+ Error err)
                  [ErrTokenParsingFailed]))
  | jwt.Parsed token =>
  let mapClaims := jwt.Claims token in
  if negb (jwt.Valid token) then ret (Err ErrTokenInvalid)
  else
    let issuer := fst (jwt.GetIssuer mapClaims) in
    if negb (slices_Contains (validIssuers v) issuer) then
      ret (Err (wrapErrors
                  (Error ErrInvalidIssuer +:+ ". Received: " +:+ issuer)
                  [ErrInvalidIssuer]))
    else
      let audience := fst (jwt.GetAudience mapClaims) in
      if isAudienceCheckEnabled v
         && negb (audiencesIntersect (validAudiences v) audience)
      then
        ret (Err (wrapErrors
                    (Error ErrInvalidAudience +:+ ". Received: ["
                       +:+ GoStrings.Join audience " " +:+ "]")
                    [ErrInvalidAudience]))
      else ret (Ok (buildUserClaims v mapClaims))
  end.

(** *** Middleware *)

(** The handler returned by [v.Middleware(next)], applied to a request.
    [next] stands for [next.ServeHTTP(w, _)]. *)
Definition Middleware (v : Validator) (next : Request → Eff unit)
    (r : Request) : Eff unit :=
  match extractBearerToken r with
  | Err err =>
      emit (RespondError
              (problem_FromError err http.StatusUnauthorized r))
  | Ok tokenString =>
      res <- validateToken v tokenString ;;
      match res with
      | Err err =>
          emit (LoggerWarn (logger v) "Token validation failed" err
                  (RemoteAddr r)) ;;;
          emit (RespondError
                  (problem_FromError ErrTokenInvalid http.StatusUnauthorized r))
      | Ok claims =>
          emit (LoggerInfo (logger v) "Token validated" claims) ;;;
          next (WithContext r claims)
      end
  end.

(** ** Notions used to state the properties *)

Definition is_AString (x : any) : bool :=
  match x with AString _ => true | _ => false end.

(** The string elements of a decoded list, in their order. *)
Fixpoint stringsOf (l : list any) : list string :=
  match l with
  | [] => []
  | AString s :: rest => s :: stringsOf rest
  | _ :: rest => stringsOf rest
  end.

(** [field] is the claim [key] when that claim is a string, and the
    empty string when it is absent or of another type. *)
Definition optionalString (m : jwt.MapClaims) (key field : string) : Prop :=
  (∀ s, m !! key = Some (AString s) → field = s)
  ∧ ((∀ s, m !! key ≠ Some (AString s)) → field = "").

(** An option list disables the audience check when it contains
    [WithoutAudienceValidation]. *)
Definition audienceCheckDisabled (opts : list Option) : bool :=
  existsb (fun o => match o with WithoutAudienceValidation => true
                              | _ => false end) opts.

(** The accepted audiences an option list leaves configured: those of
    its last [WithAudiences], or [init] without any. *)
Definition configuredAudiences (opts : list Option) (init : list string)
  : list string :=
  fold_left (fun acc o => match o with WithAudiences a => a | _ => acc end)
            opts init.

(** Whether the byte [c] occurs in [s]. *)
Fixpoint contains_byte (c : ascii) (s : string) : bool :=
  match s with
  | EmptyString => false
  | String x s' => Ascii.eqb x c || contains_byte c s'
  end.

(** The responses among the events of a computation. *)
Definition responses (evs : list Event) : list Problem :=
  omap (fun e => match e with RespondError p => Some p | _ => None end) evs.

Ltac eff_simpl :=
  unfold bind, ret, emit, value, events in *; cbn [fst snd app] in *.

(** * Properties *)

(** ** Strings *)

Lemma append_cons (c : ascii) (p t : string) :
  String c p +:+ t = String c (p +:+ t).
Proof. reflexivity. Qed.

Lemma length_prefix (n : nat) (s : string) :
  n <= String.length s → String.length (GoStrings.prefix n s) = n.
Proof.
  revert s; induction n as [|n IH]; intros [|c s] Hn; simpl in *; try lia.
  rewrite IH; lia.
Qed.

Lemma length_suffix (n : nat) (s : string) :
  String.length (GoStrings.suffix n s) = String.length s - n.
Proof.
  revert s; induction n as [|n IH]; intros [|c s]; simpl; auto.
Qed.

Lemma prefix_suffix (n : nat) (s : string) :
  GoStrings.prefix n s +:+ GoStrings.suffix n s = s.
Proof.
  revert s; induction n as [|n IH]; intros [|c s]; simpl; auto.
  rewrite ?append_cons; f_equal; apply IH.
Qed.

Lemma prefix_app (p t : string) :
  GoStrings.prefix (String.length p) (p +:+ t) = p.
Proof.
  induction p as [|c p IH]; simpl.
  - now destruct t.
  - rewrite ?append_cons; simpl; f_equal; apply IH.
Qed.

Lemma suffix_app (p t : string) :
  GoStrings.suffix (String.length p) (p +:+ t) = t.
Proof. induction p as [|c p IH]; simpl; auto. Qed.

Lemma length_app (p t : string) :
  String.length (p +:+ t) = String.length p + String.length t.
Proof. induction p as [|c p IH]; simpl; auto. Qed.

Lemma EqualFold_length (s t : string) :
  GoStrings.EqualFold s t = true → String.length s = String.length t.
Proof.
  revert t; induction s as [|a s IH]; intros [|b t] H; simpl in *;
    try discriminate; auto.
  apply andb_true_iff in H as [_ H]. now rewrite (IH t H).
Qed.

Lemma length_zero_empty (s : string) : String.length s = 0 ↔ s = "".
Proof. destruct s; simpl; split; intros; try discriminate; auto. Qed.

Lemma eqb_empty_false (s : string) : s ≠ "" → String.eqb s "" = false.
Proof. intros H. now apply String.eqb_neq. Qed.

(** Folding identifies a byte with the letters B, E, A, R only in
    their two cases, and with the space only itself. *)
Ltac fold_byte_cases c :=
  destruct c as [[] [] [] [] [] [] [] []]; vm_compute;
  intros H; try discriminate H; auto.

Lemma fold_byte_B (c : ascii) :
  Ascii.eqb (GoStrings.fold_byte c) (GoStrings.fold_byte "B") = true →
  c = "B"%char ∨ c = "b"%char.
Proof. fold_byte_cases c. Qed.

Lemma fold_byte_e (c : ascii) :
  Ascii.eqb (GoStrings.fold_byte c) (GoStrings.fold_byte "e") = true →
  c = "E"%char ∨ c = "e"%char.
Proof. fold_byte_cases c. Qed.

Lemma fold_byte_a (c : ascii) :
  Ascii.eqb (GoStrings.fold_byte c) (GoStrings.fold_byte "a") = true →
  c = "A"%char ∨ c = "a"%char.
Proof. fold_byte_cases c. Qed.

Lemma fold_byte_r (c : ascii) :
  Ascii.eqb (GoStrings.fold_byte c) (GoStrings.fold_byte "r") = true →
  c = "R"%char ∨ c = "r"%char.
Proof. fold_byte_cases c. Qed.

Lemma fold_byte_space (c : ascii) :
  Ascii.eqb (GoStrings.fold_byte c) (GoStrings.fold_byte " ") = true →
  c = " "%char.
Proof. fold_byte_cases c. Qed.

(** The strings that [EqualFold] identifies with the scheme are its 64
    case variants. *)
Lemma EqualFold_Bearer (s : string) :
  GoStrings.EqualFold s "Bearer " = true ↔
  ∃ b e a r e' r',
    s = String b (String e (String a (String r (String e' (String r' " ")))))
    ∧ (b = "B"%char ∨ b = "b"%char) ∧ (e = "E"%char ∨ e = "e"%char)
    ∧ (a = "A"%char ∨ a = "a"%char) ∧ (r = "R"%char ∨ r = "r"%char)
    ∧ (e' = "E"%char ∨ e' = "e"%char) ∧ (r' = "R"%char ∨ r' = "r"%char).
Proof.
  split.
  - destruct s as [|b [|e [|a [|r [|e' [|r' [|sp [|x s]]]]]]]];
      try discriminate; cbn [GoStrings.EqualFold];
      rewrite ?andb_true_iff; try (intros; intuition discriminate).
    intros (Hb & He & Ha & Hr & He' & Hr' & Hsp & _).
    apply fold_byte_space in Hsp as ->.
    exists b, e, a, r, e', r'.
    repeat split;
      auto using fold_byte_B, fold_byte_e, fold_byte_a, fold_byte_r.
  - intros (b & e & a & r & e' & r' & -> & Hb & He & Ha & Hr & He' & Hr').
    destruct Hb as [-> | ->], He as [-> | ->], Ha as [-> | ->],
      Hr as [-> | ->], He' as [-> | ->], Hr' as [-> | ->]; reflexivity.
Qed.

(** [Header.Get] of a key that is not in the header. *)
Lemma Header_Get_absent (h : http.Header) (key : string) :
  h !! key = None → http.Header_Get h key = "".
Proof. intros H. unfold http.Header_Get. now rewrite H. Qed.

(** ** Bearer-token extraction *)

(** The token is returned exactly when the header value is a nonempty
    token preceded by a case variant of the seven bytes of the scheme. *)
Lemma extractBearerToken_Ok (r : Request) (token : string) :
  extractBearerToken r = Ok token ↔
  ∃ scheme, http.Header_Get (ReqHeader r) "Authorization" = scheme +:+ token
            ∧ GoStrings.EqualFold scheme "Bearer " = true ∧ token ≠ "".
Proof.
  unfold extractBearerToken.
  set (h := http.Header_Get (ReqHeader r) "Authorization").
  split.
  - destruct (String.eqb h "") eqn:He; [discriminate|].
    destruct (7 <? String.length h) eqn:Hl; cbn [andb]; [|discriminate].
    destruct (GoStrings.EqualFold (GoStrings.prefix 7 h) "Bearer ") eqn:Hf;
      [|discriminate].
    intros Heq. assert (token = GoStrings.suffix 7 h) as -> by congruence.
    clear Heq. apply Nat.ltb_lt in Hl.
    exists (GoStrings.prefix 7 h). rewrite prefix_suffix.
    repeat split; auto.
    intros Hs. pose proof (length_suffix 7 h) as Hls.
    rewrite Hs in Hls. simpl in Hls. lia.
  - intros (scheme & Hh & Hf & Ht).
    pose proof (EqualFold_length _ _ Hf) as Hlen. simpl in Hlen.
    assert (String.length token ≠ 0) as Hn
      by (intros Hz; now apply length_zero_empty in Hz).
    assert (String.length h = 7 + String.length token) as Hlh
      by (rewrite Hh, length_app; lia).
    rewrite eqb_empty_false
      by (intros Hh0; rewrite Hh0 in Hlh; simpl in Hlh; lia).
    replace (7 <? String.length h) with true
      by (symmetry; apply Nat.ltb_lt; lia).
    cbn [andb]. rewrite Hh, <- Hlen.
    rewrite prefix_app, suffix_app, Hf. reflexivity.
Qed.

Lemma extractBearerToken_Err (r : Request) (err : error) :
  extractBearerToken r = Err err →
  err = ErrMissingAuthHeader ∨ err = ErrInvalidAuthHeaderFormat.
Proof.
  unfold extractBearerToken.
  destruct (String.eqb _ ""); [intros [= <-]; now left|].
  destruct (_ && _); [discriminate|intros [= <-]; now right].
Qed.

(** C7 (as amended).  Extraction returns [ErrMissingAuthHeader] when the
    Authorization header is absent or its value is empty; it returns the
    text after the scheme, verbatim, when the value is a case variant of
    the seven bytes of the scheme followed by a nonempty token; and it
    returns [ErrInvalidAuthHeaderFormat] for every other nonempty value,
    a value made of the scheme alone included. *)
Theorem extractBearerToken_cases (r : Request) :
  let authHeader := http.Header_Get (ReqHeader r) "Authorization" in
  (ReqHeader r !! "Authorization" = None →
     extractBearerToken r = Err ErrMissingAuthHeader)
  ∧ (authHeader = "" → extractBearerToken r = Err ErrMissingAuthHeader)
  ∧ (∀ scheme token,
       authHeader = scheme +:+ token →
       GoStrings.EqualFold scheme "Bearer " = true →
       token ≠ "" →
       extractBearerToken r = Ok token)
  ∧ (authHeader ≠ "" →
     (¬ ∃ scheme token,
          authHeader = scheme +:+ token
          ∧ GoStrings.EqualFold scheme "Bearer " = true ∧ token ≠ "") →
     extractBearerToken r = Err ErrInvalidAuthHeaderFormat).
Proof.
  intros authHeader.
  assert (authHeader = "" → extractBearerToken r = Err ErrMissingAuthHeader)
    as Hempty.
  { intros He. unfold extractBearerToken. fold authHeader. now rewrite He. }
  repeat split.
  - intros Habs. apply Hempty. now apply Header_Get_absent.
  - exact Hempty.
  - intros scheme token Hh Hf Ht. apply extractBearerToken_Ok. eauto.
  - intros Hne Hno.
    destruct (extractBearerToken r) as [token|err] eqn:Hx.
    + apply extractBearerToken_Ok in Hx as (scheme & ? & ? & ?).
      exfalso. apply Hno. eauto.
    + f_equal. unfold extractBearerToken in Hx. fold authHeader in Hx.
      rewrite eqb_empty_false in Hx by assumption.
      destruct (_ && _); congruence.
Qed.

(** C10.  A token returned by extraction is never empty, because the
    header value must be strictly longer than the seven bytes of the
    scheme: a value that is a case variant of the scheme alone is
    rejected with [ErrInvalidAuthHeaderFormat].  Hence the middleware
    either answers with the extraction error without validating
    anything, or validates a nonempty token. *)
Theorem extracted_token_nonempty (r : Request) :
  let authHeader := http.Header_Get (ReqHeader r) "Authorization" in
  (∀ token, extractBearerToken r = Ok token →
     token ≠ "" ∧ 7 < String.length authHeader)
  ∧ (GoStrings.EqualFold authHeader "Bearer " = true →
     extractBearerToken r = Err ErrInvalidAuthHeaderFormat)
  ∧ (∀ v next,
       (∃ err, extractBearerToken r = Err err
               ∧ Middleware v next r
                 = emit (RespondError
                           (problem_FromError err http.StatusUnauthorized r)))
       ∨ (∃ tokenString k,
            tokenString ≠ ""
            ∧ extractBearerToken r = Ok tokenString
            ∧ Middleware v next r = bind (validateToken v tokenString) k)).
Proof.
  intros authHeader. repeat split.
  - now apply extractBearerToken_Ok in H as (scheme & ? & ? & ?).
  - apply extractBearerToken_Ok in H as (scheme & Hh & Hf & Ht).
    apply EqualFold_length in Hf. simpl in Hf. fold authHeader in Hh.
    rewrite Hh, length_app, Hf.
    destruct token; [congruence|simpl; lia].
  - intros Hf. pose proof (EqualFold_length _ _ Hf) as Hlen. simpl in Hlen.
    unfold extractBearerToken. fold authHeader.
    rewrite eqb_empty_false
      by (intros He; rewrite He in Hlen; discriminate).
    now rewrite Hlen.
  - intros v next. unfold Middleware.
    destruct (extractBearerToken r) as [token|err] eqn:Hx.
    + right. eexists token, _. repeat split.
      now apply extractBearerToken_Ok in Hx as (scheme & ? & ? & ?).
    + left. eauto.
Qed.

(** ** Claims normalisation *)

Lemma stringsOf_filter (l : list any) :
  map AString (stringsOf l) = List.filter is_AString l.
Proof.
  induction l as [|x l IH]; simpl; auto.
  destruct x; simpl; auto. now rewrite IH.
Qed.

Lemma appendRoles_stringsOf (l : list any) (roles : list string) :
  appendRoles l roles = roles ++ stringsOf l.
Proof.
  revert roles; induction l as [|x l IH]; intros roles; simpl.
  - now rewrite app_nil_r.
  - destruct x; auto. rewrite IH, <- app_assoc. reflexivity.
Qed.

Lemma stringClaim_optional (m : jwt.MapClaims) (key : string) :
  optionalString m key (stringClaim m key).
Proof.
  unfold optionalString, stringClaim. split.
  - intros s ->. reflexivity.
  - intros H. destruct (m !! key) as [[]|]; auto. now destruct (H s).
Qed.

(** C8.  [buildUserClaims] is total.  Its [Roles] are the string
    elements of the [roles] claim in their order when that claim is a
    list (the list filtered by being a string), and no role otherwise;
    [Name], [PreferredUser], [TenantID] and [Scopes] are the claims
    [name], [preferred_username], [tid] and [scp] when these are strings
    and the empty string when they are absent or of another type. *)
Theorem buildUserClaims_normalises (v : Validator) (mapClaims : jwt.MapClaims) :
  let c := buildUserClaims v mapClaims in
  (∀ l, mapClaims !! "roles" = Some (ASlice l) →
     Roles c = stringsOf l ∧ map AString (Roles c) = List.filter is_AString l)
  ∧ ((∀ l, mapClaims !! "roles" ≠ Some (ASlice l)) → Roles c = [])
  ∧ optionalString mapClaims "name" (Name c)
  ∧ optionalString mapClaims "preferred_username" (PreferredUser c)
  ∧ optionalString mapClaims "tid" (TenantID c)
  ∧ optionalString mapClaims "scp" (Scopes c)
  ∧ RawClaims c = mapClaims.
Proof.
  cbn zeta. unfold buildUserClaims. cbn [Roles Name PreferredUser TenantID Scopes RawClaims].
  split; [|split]; [| |repeat split; apply stringClaim_optional].
  - intros l ->. rewrite appendRoles_stringsOf. simpl.
    split; [reflexivity|apply stringsOf_filter].
  - intros H. destruct (mapClaims !! "roles") as [[]|]; auto.
    now destruct (H elems).
Qed.

(** ** Construction *)

Lemma applyOptions_validIssuers (opts : list Option) (v : Validator) :
  validIssuers (applyOptions opts v) = validIssuers v.
Proof.
  revert v; induction opts as [|o opts IH]; intros v; simpl; auto.
  unfold applyOptions in *. simpl. rewrite IH. now destruct o.
Qed.

Lemma applyOptions_validAudiences (opts : list Option) (v : Validator) :
  validAudiences (applyOptions opts v)
  = configuredAudiences opts (validAudiences v).
Proof.
  revert v; induction opts as [|o opts IH]; intros v; simpl; auto.
  unfold applyOptions, configuredAudiences in *. simpl. rewrite IH.
  now destruct o.
Qed.

Lemma applyOptions_isAudienceCheckEnabled (opts : list Option) (v : Validator) :
  isAudienceCheckEnabled (applyOptions opts v)
  = isAudienceCheckEnabled v && negb (audienceCheckDisabled opts).
Proof.
  revert v; induction opts as [|o opts IH]; intros v; simpl.
  - now rewrite andb_true_r.
  - unfold applyOptions in *. simpl. rewrite IH.
    destruct o; simpl; auto. now rewrite andb_false_r.
Qed.

(** What a successful [NewValidator] returns, field by field. *)
Lemma NewValidator_Ok (tenantID : string) (opts : list Option) (v : Validator) :
  NewValidator tenantID opts = Ok v →
  tenantID ≠ ""
  ∧ validIssuers v
    = ["https://sts.windows.net/" +:+ tenantID +:+ "/";
       "https://login.microsoftonline.com/" +:+ tenantID +:+ "/v2.0"]
  ∧ validAudiences v = configuredAudiences opts []
  ∧ isAudienceCheckEnabled v = negb (audienceCheckDisabled opts)
  ∧ (isAudienceCheckEnabled v && (length (validAudiences v) =? 0)) = false
  ∧ logger v ≠ None.
Proof.
  unfold NewValidator.
  destruct (String.eqb tenantID "") eqn:Ht; [discriminate|].
  apply String.eqb_neq in Ht.
  destruct (keyfunc_NewDefaultCtx _) as [k1|]; [|discriminate].
  destruct (keyfunc_NewDefaultCtx _) as [k2|]; [|discriminate].
  set (v0 := mkValidator k1 k2 _ [] true None).
  pose proof (applyOptions_validIssuers opts v0) as Hi.
  pose proof (applyOptions_validAudiences opts v0) as Ha.
  pose proof (applyOptions_isAudienceCheckEnabled opts v0) as He.
  simpl in Hi, Ha, He.
  destruct (logger (applyOptions opts v0)) as [lg|] eqn:Hl.
  - destruct (_ && _) eqn:Hc; [discriminate|]. intros [= <-].
    rewrite Hi, Ha, He, Hl. rewrite Ha, He in Hc.
    repeat split; auto; discriminate.
  - destruct zap_NewProduction as [lg|]; [|discriminate].
    cbn [isAudienceCheckEnabled validAudiences].
    destruct (_ && _) eqn:Hc; [discriminate|]. intros [= <-].
    cbn [validIssuers validAudiences isAudienceCheckEnabled logger].
    rewrite Hi, Ha, He. rewrite Ha, He in Hc.
    repeat split; auto; discriminate.
Qed.

(** C9.  [NewValidator] returns an error, and no validator, for the
    empty tenant identifier, and whenever no option disables the
    audience check while the options leave no accepted audience
    configured; a validator it returns with the audience check enabled
    has a nonempty list of accepted audiences. *)
Theorem NewValidator_rejects (tenantID : string) (opts : list Option) :
  (tenantID = "" → ∃ err, NewValidator tenantID opts = Err err)
  ∧ (audienceCheckDisabled opts = false →
     configuredAudiences opts [] = [] →
     ∃ err, NewValidator tenantID opts = Err err)
  ∧ (∀ v, NewValidator tenantID opts = Ok v →
       isAudienceCheckEnabled v = true → validAudiences v ≠ []).
Proof.
  repeat split.
  - intros ->. unfold NewValidator. simpl. eauto.
  - intros Hd Hc.
    destruct (NewValidator tenantID opts) as [v|err] eqn:Hn; [|eauto].
    apply NewValidator_Ok in Hn as (_ & _ & Ha & He & Hk & _).
    rewrite Ha, He, Hc, Hd in Hk. discriminate.
  - intros v Hn Hen Hempty.
    apply NewValidator_Ok in Hn as (_ & _ & _ & _ & Hk & _).
    rewrite Hen, Hempty in Hk. discriminate.
Qed.

(** ** The parser *)

Lemma Cut_found (p rest : string) (sep : ascii) :
  contains_byte sep p = false →
  GoStrings.Cut (p +:+ String sep rest) sep = (p, rest, true).
Proof.
  induction p as [|c p IH]; cbn [contains_byte]; intros H.
  - change ("" +:+ String sep rest) with (String sep rest).
    cbn [GoStrings.Cut]. now rewrite Ascii.eqb_refl.
  - apply orb_false_iff in H as [Hc Hp]. rewrite append_cons.
    cbn [GoStrings.Cut]. rewrite Hc, (IH Hp). reflexivity.
Qed.

Lemma Cut_not_found (p : string) (sep : ascii) :
  contains_byte sep p = false → GoStrings.Cut p sep = (p, "", false).
Proof.
  induction p as [|c p IH]; cbn [contains_byte]; intros H; [reflexivity|].
  apply orb_false_iff in H as [Hc Hp].
  cbn [GoStrings.Cut]. rewrite Hc, (IH Hp). reflexivity.
Qed.

(** [splitToken] on three segments joined by two delimiters. *)
Lemma splitToken_segments (p0 p1 p2 : string) :
  contains_byte "." p0 = false →
  contains_byte "." p1 = false →
  contains_byte "." p2 = false →
  jwt.splitToken (p0 +:+ String "." (p1 +:+ String "." p2))
  = ([p0; p1; p2], true).
Proof.
  intros H0 H1 H2. unfold jwt.splitToken.
  rewrite (Cut_found _ _ _ H0). cbn [negb].
  rewrite (Cut_found _ _ _ H1). cbn [negb].
  now rewrite (Cut_not_found _ _ H2).
Qed.

(** A token returned without error has its [Valid] flag set. *)
Lemma jwt_ParseWithClaims_Valid (tokenString : string)
    (kf : jwt.Token → Eff (result Key)) (validMethods : list string)
    (token : jwt.Token) :
  value (jwt_ParseWithClaims tokenString kf validMethods) = jwt.Parsed token →
  jwt.Valid token = true.
Proof.
  unfold jwt_ParseWithClaims.
  destruct (jwt_ParseUnverified tokenString) as [[tok parts]|t e];
    [|eff_simpl; discriminate].
  destruct (negb _); [eff_simpl; discriminate|].
  destruct (DecodeSegment _) as [sig|e]; [|eff_simpl; discriminate].
  cbn zeta. destruct (kf _) as [[key|e] evs]; eff_simpl; [|discriminate].
  destruct (Verify _ _ _ _); eff_simpl; [discriminate|].
  destruct (Validate _); eff_simpl; [discriminate|].
  intros [= <-]. reflexivity.
Qed.

(** A token whose method is not among the valid ones is refused
    without any effect: neither the key function nor [Verify] runs. *)
Lemma jwt_ParseWithClaims_invalid_method (tokenString : string)
    (kf : jwt.Token → Eff (result Key)) (validMethods : list string)
    (token : jwt.Token) (parts : list string) :
  jwt_ParseUnverified tokenString = jwt.Parsed (token, parts) →
  existsb (fun m => String.eqb m (jwt.Method token)) validMethods = false →
  jwt_ParseWithClaims tokenString kf validMethods
  = ret (jwt.Failed (Some token)
           (jwt.newError
              ("signing method " +:+ jwt.Method token +:+ " is invalid")
              jwt.ErrTokenSignatureInvalid [])).
Proof.
  intros Hu Hm. unfold jwt_ParseWithClaims. now rewrite Hu, Hm.
Qed.

Lemma jwt_ParseWithClaims_unverified_failed (tokenString : string)
    (kf : jwt.Token → Eff (result Key)) (validMethods : list string)
    (t : option jwt.Token) (err : error) :
  jwt_ParseUnverified tokenString = jwt.Failed t err →
  jwt_ParseWithClaims tokenString kf validMethods = ret (jwt.Failed t err).
Proof. intros Hu. unfold jwt_ParseWithClaims. now rewrite Hu. Qed.

(** The signature of a token of a valid method fails to verify against
    the key the key function resolved. *)
Lemma jwt_ParseWithClaims_bad_signature (tokenString : string)
    (kf : jwt.Token → Eff (result Key)) (validMethods : list string)
    (token : jwt.Token) (parts : list string) (signature : string)
    (key : Key) (verr : error) :
  jwt_ParseUnverified tokenString = jwt.Parsed (token, parts) →
  existsb (fun m => String.eqb m (jwt.Method token)) validMethods = true →
  DecodeSegment (nth 2 parts "") = Ok signature →
  let token' :=
    jwt.mkToken (jwt.Raw token) (jwt.Method token) (jwt.Header token)
      (jwt.Claims token) signature false in
  value (kf token') = Ok key →
  Verify (jwt.Method token) (GoStrings.Join (firstn 2 parts) ".")
    signature key = Some verr →
  value (jwt_ParseWithClaims tokenString kf validMethods)
  = jwt.Failed (Some token')
      (jwt.newError "" jwt.ErrTokenSignatureInvalid [verr]).
Proof.
  intros Hu Hm Hd token' Hk Hv. unfold jwt_ParseWithClaims.
  rewrite Hu, Hm, Hd. cbn [negb]. cbn zeta. fold token'.
  destruct (kf token') as [got evs]. eff_simpl. subst got.
  now rewrite Hv.
Qed.

(** [ParseUnverified] on a string of three segments whose first two
    decode. *)
Lemma jwt_ParseUnverified_decoded (tokenString p0 p1 p2 headerBytes claimBytes : string)
    (header claims : gmap string any) :
  jwt.splitToken tokenString = ([p0; p1; p2], true) →
  DecodeSegment p0 = Ok headerBytes →
  json_Unmarshal headerBytes = Ok header →
  DecodeSegment p1 = Ok claimBytes →
  json_Unmarshal claimBytes = Ok claims →
  jwt_ParseUnverified tokenString
  = match header !! "alg" with
    | Some (AString method) =>
        match jwt.GetSigningMethod method with
        | None =>
            jwt.Failed
              (Some (jwt.mkToken tokenString "" header claims "" false))
              (jwt.newError "signing method (alg) is unavailable"
                 jwt.ErrTokenUnverifiable [])
        | Some m =>
            jwt.Parsed
              (jwt.mkToken tokenString m header claims "" false,
               [p0; p1; p2])
        end
    | _ =>
        jwt.Failed (Some (jwt.mkToken tokenString "" header claims "" false))
          (jwt.newError "signing method (alg) is unspecified"
             jwt.ErrTokenUnverifiable [])
    end.
Proof.
  intros Hs H0 Hh H1 Hc. unfold jwt_ParseUnverified.
  rewrite Hs. cbn [negb nth]. now rewrite H0, Hh, H1, Hc.
Qed.

Lemma GetSigningMethod_Some (alg m : string) :
  jwt.GetSigningMethod alg = Some m → m = alg.
Proof. unfold jwt.GetSigningMethod. destruct (existsb _ _); congruence. Qed.

(** ** Validation *)

Lemma slices_Contains_elem_of (l : list string) (x : string) :
  slices_Contains l x = true ↔ x ∈ l.
Proof.
  unfold slices_Contains. rewrite existsb_exists. split.
  - intros (y & Hy & He). apply String.eqb_eq in He as ->.
    now apply list_elem_of_In.
  - intros Hx. exists x. split; [now apply list_elem_of_In|].
    apply String.eqb_refl.
Qed.

Lemma audiencesIntersect_spec (validAudiences : list string)
    (tokenAudiences : jwt.ClaimStrings) :
  audiencesIntersect validAudiences tokenAudiences = true
  ↔ ∃ a, a ∈ tokenAudiences ∧ a ∈ validAudiences.
Proof.
  induction tokenAudiences as [|a rest IH]; simpl.
  - split; [discriminate|]. intros (a & Ha & _). now apply elem_of_nil in Ha.
  - destruct (slices_Contains validAudiences a) eqn:Hc.
    + split; auto. intros _. exists a. split; [left|].
      now apply slices_Contains_elem_of.
    + rewrite IH. split.
      * intros (b & Hb & Hv). exists b. split; [now right|done].
      * intros (b & Hb & Hv). apply elem_of_cons in Hb as [->|Hb].
        -- apply slices_Contains_elem_of in Hv. congruence.
        -- eauto.
Qed.

(** The events of [validateToken] are those of the parser. *)
Lemma validateToken_events (v : Validator) (tokenString : string) :
  events (validateToken v tokenString)
  = events (jwt_ParseWithClaims tokenString (keyFunc v) ["RS256"]).
Proof.
  unfold validateToken.
  destruct (jwt_ParseWithClaims _ _ _) as [[token|t e] evs]; eff_simpl.
  - destruct (negb (jwt.Valid token)); [now rewrite app_nil_r|].
    destruct (negb _); [now rewrite app_nil_r|].
    destruct (_ && _); now rewrite app_nil_r.
  - now rewrite app_nil_r.
Qed.

(** Every error of the parser is wrapped into [ErrTokenParsingFailed]. *)
Lemma validateToken_Failed (v : Validator) (tokenString : string)
    (t : option jwt.Token) (err : error) :
  value (jwt_ParseWithClaims tokenString (keyFunc v) ["RS256"])
  = jwt.Failed t err →
  value (validateToken v tokenString)
  = Err (wrapErrors ("failed to parse token: " +:+ Error err)
           [ErrTokenParsingFailed]).
Proof.
  unfold validateToken.
  destruct (jwt_ParseWithClaims _ _ _) as [p evs]; eff_simpl.
  intros ->. reflexivity.
Qed.

(** After a successful parse the result is decided by the issuer check
    and then the audience check. *)
Lemma validateToken_Parsed (v : Validator) (tokenString : string)
    (token : jwt.Token) :
  value (jwt_ParseWithClaims tokenString (keyFunc v) ["RS256"])
  = jwt.Parsed token →
  let mapClaims := jwt.Claims token in
  let issuer := fst (jwt.GetIssuer mapClaims) in
  let audience := fst (jwt.GetAudience mapClaims) in
  value (validateToken v tokenString)
  = if negb (slices_Contains (validIssuers v) issuer) then
      Err (wrapErrors ("invalid token issuer. Received: " +:+ issuer)
             [ErrInvalidIssuer])
    else if isAudienceCheckEnabled v
            && negb (audiencesIntersect (validAudiences v) audience)
    then
      Err (wrapErrors
             ("invalid token audience. Received: ["
                +:+ GoStrings.Join audience " " +:+ "]")
             [ErrInvalidAudience])
    else Ok (buildUserClaims v mapClaims).
Proof.
  intros Hp. pose proof (jwt_ParseWithClaims_Valid _ _ _ _ Hp) as Hv.
  unfold validateToken.
  destruct (jwt_ParseWithClaims _ _ _) as [p evs]; eff_simpl. subst p.
  rewrite Hv. cbn [negb]. cbn zeta.
  destruct (negb _); [reflexivity|].
  destruct (_ && _); reflexivity.
Qed.

(** [validateToken] returns [ErrTokenInvalid] for no token. *)
Lemma validateToken_never_ErrTokenInvalid (v : Validator)
    (tokenString : string) (err : error) :
  value (validateToken v tokenString) = Err err →
  errors_Is err ErrTokenInvalid = false.
Proof.
  destruct (value (jwt_ParseWithClaims tokenString (keyFunc v) ["RS256"]))
    as [token|t e] eqn:Hp.
  - rewrite (validateToken_Parsed _ _ _ Hp). cbn zeta.
    destruct (negb _); [intros [= <-]; reflexivity|].
    destruct (_ && _); [intros [= <-]; reflexivity|discriminate].
  - rewrite (validateToken_Failed _ _ _ _ Hp). intros [= <-]. reflexivity.
Qed.

(** C1 (as amended).  When the key function resolves a key and the
    signature of an RS256 token does not verify against it, [validateToken]
    returns an error that wraps [ErrTokenParsingFailed] and carries the
    parser's message; it is not [ErrTokenInvalid].  The parser reports
    every failure as an error and sets the [Valid] flag of every token it
    returns without one, so [validateToken] returns [ErrTokenInvalid] for
    no token string. *)
Theorem validateToken_signature_failure (v : Validator) (tokenString : string)
    (token : jwt.Token) (parts : list string) (signature : string)
    (key : Key) (verr : error) :
  jwt_ParseUnverified tokenString = jwt.Parsed (token, parts) →
  jwt.Method token = "RS256" →
  DecodeSegment (nth 2 parts "") = Ok signature →
  value (keyFunc v
           (jwt.mkToken (jwt.Raw token) (jwt.Method token) (jwt.Header token)
              (jwt.Claims token) signature false)) = Ok key →
  Verify "RS256" (GoStrings.Join (firstn 2 parts) ".") signature key
  = Some verr →
  value (validateToken v tokenString)
  = Err (wrapErrors
           ("failed to parse token: token signature is invalid: "
              +:+ Error verr)
           [ErrTokenParsingFailed])
  ∧ (∀ err, value (validateToken v tokenString) = Err err →
       errors_Is err ErrTokenParsingFailed = true
       ∧ errors_Is err ErrTokenInvalid = false)
  ∧ (∀ anyToken err, value (validateToken v anyToken) = Err err →
       errors_Is err ErrTokenInvalid = false).
Proof.
  intros Hu Hm Hd Hk Hv.
  assert (value (validateToken v tokenString)
          = Err (wrapErrors
                   ("failed to parse token: token signature is invalid: "
                      +:+ Error verr)
                   [ErrTokenParsingFailed])) as Hres.
  { assert (existsb (fun m => String.eqb m (jwt.Method token)) ["RS256"]
            = true) as Hm' by now rewrite Hm.
    rewrite <- Hm in Hv.
    pose proof (jwt_ParseWithClaims_bad_signature
                  _ _ _ _ _ _ _ _ Hu Hm' Hd Hk Hv) as Hp.
    rewrite (validateToken_Failed _ _ _ _ Hp). reflexivity. }
  split; [exact Hres|split].
  - intros err. rewrite Hres. intros [= <-]. split; reflexivity.
  - intros anyToken err. apply validateToken_never_ErrTokenInvalid.
Qed.

(** C3.  A token of three segments whose header and claims decode, and
    whose header does not declare RS256, is rejected by [validateToken]
    without any effect: the rejection comes before the key function of
    either key set and before [Verify] is called. *)
Theorem validateToken_rejects_other_algorithms (v : Validator)
    (tokenString p0 p1 p2 headerBytes claimBytes : string)
    (header claims : gmap string any) :
  jwt.splitToken tokenString = ([p0; p1; p2], true) →
  DecodeSegment p0 = Ok headerBytes →
  json_Unmarshal headerBytes = Ok header →
  DecodeSegment p1 = Ok claimBytes →
  json_Unmarshal claimBytes = Ok claims →
  header !! "alg" ≠ Some (AString "RS256") →
  ∃ err, validateToken v tokenString = (Err err, [])
         ∧ errors_Is err ErrTokenParsingFailed = true.
Proof.
  intros Hs H0 Hh H1 Hc Halg.
  pose proof (jwt_ParseUnverified_decoded _ _ _ _ _ _ _ _ Hs H0 Hh H1 Hc) as Hu.
  assert (∃ t e, jwt_ParseWithClaims tokenString (keyFunc v) ["RS256"]
                 = ret (jwt.Failed t e)) as (t & e & Hp).
  { destruct (header !! "alg") as [[|b|x|method|elems|fields]|];
      try (eexists _, _;
           eapply jwt_ParseWithClaims_unverified_failed; exact Hu).
    destruct (jwt.GetSigningMethod method) as [m|] eqn:Hg;
      [|eexists _, _; eapply jwt_ParseWithClaims_unverified_failed; exact Hu].
    apply GetSigningMethod_Some in Hg as ->.
    eexists _, _. eapply jwt_ParseWithClaims_invalid_method; [exact Hu|].
    cbn [jwt.Method existsb]. rewrite orb_false_r.
    apply String.eqb_neq. congruence. }
  unfold validateToken. rewrite Hp. eff_simpl.
  eexists. split; reflexivity.
Qed.

(** What [GetAudience] reads from a well-formed [aud] claim. *)
Lemma GetAudience_strings (mapClaims : jwt.MapClaims) :
  (∀ s, mapClaims !! "aud" = Some (AString s) →
     fst (jwt.GetAudience mapClaims) = [s])
  ∧ (∀ l, mapClaims !! "aud" = Some (ASlice (map AString l)) →
       fst (jwt.GetAudience mapClaims) = l)
  ∧ (mapClaims !! "aud" = None → fst (jwt.GetAudience mapClaims) = []).
Proof.
  unfold jwt.GetAudience, jwt.parseClaimsString. repeat split.
  - intros s ->. reflexivity.
  - intros l ->.
    assert (∀ cs, jwt.parseClaimsString_loop "aud" (map AString l) cs
                  = (cs ++ l, None)) as Hloop.
    { induction l as [|a l IH]; intros cs; simpl.
      - now rewrite app_nil_r.
      - rewrite IH, <- app_assoc. reflexivity. }
    now rewrite Hloop.
  - intros ->. reflexivity.
Qed.

(** C4.  For a token that parsed and passed the issuer check: with the
    audience check enabled, validation succeeds when some audience of
    the token is an accepted audience and fails with an error wrapping
    [ErrInvalidAudience] when none is; with the audience check disabled
    it succeeds whatever the audience claim holds. *)
Theorem validateToken_audience_check (v : Validator) (tokenString : string)
    (token : jwt.Token) :
  value (jwt_ParseWithClaims tokenString (keyFunc v) ["RS256"])
  = jwt.Parsed token →
  slices_Contains (validIssuers v) (fst (jwt.GetIssuer (jwt.Claims token)))
  = true →
  let audience := fst (jwt.GetAudience (jwt.Claims token)) in
  let intersects := ∃ a, a ∈ audience ∧ a ∈ validAudiences v in
  (isAudienceCheckEnabled v = true →
     (intersects →
        value (validateToken v tokenString)
        = Ok (buildUserClaims v (jwt.Claims token)))
     ∧ (¬ intersects →
        value (validateToken v tokenString)
        = Err (wrapErrors
                 ("invalid token audience. Received: ["
                    +:+ GoStrings.Join audience " " +:+ "]")
                 [ErrInvalidAudience])))
  ∧ (isAudienceCheckEnabled v = false →
     value (validateToken v tokenString)
     = Ok (buildUserClaims v (jwt.Claims token))).
Proof.
  intros Hp Hiss audience intersects.
  rewrite (validateToken_Parsed _ _ _ Hp). cbn zeta. rewrite Hiss.
  cbn [negb]. fold audience.
  pose proof (audiencesIntersect_spec (validAudiences v) audience) as Hspec.
  fold intersects in Hspec.
  split; [intros ->; split|intros ->; reflexivity]; cbn [andb].
  - intros Hi. apply Hspec in Hi. now rewrite Hi.
  - intros Hn. destruct (audiencesIntersect _ _); [|reflexivity].
    exfalso. apply Hn, Hspec. reflexivity.
Qed.

(** C5.  For a validator built by [NewValidator] for a tenant and a
    token that parsed: validation does not fail on the issuer exactly
    when the issuer claim is one of the two strings derived from the
    tenant; any other issuer, the empty one read from an absent claim
    included, gives an error that wraps [ErrInvalidIssuer] and whose
    message ends with the issuer received. *)
Theorem validateToken_issuer_check (tenantID : string) (opts : list Option)
    (v : Validator) (tokenString : string) (token : jwt.Token) :
  NewValidator tenantID opts = Ok v →
  value (jwt_ParseWithClaims tokenString (keyFunc v) ["RS256"])
  = jwt.Parsed token →
  let issuer := fst (jwt.GetIssuer (jwt.Claims token)) in
  let accepted :=
    issuer = "https://sts.windows.net/" +:+ tenantID +:+ "/"
    ∨ issuer = "https://login.microsoftonline.com/" +:+ tenantID +:+ "/v2.0" in
  (accepted ↔
   ∀ err, value (validateToken v tokenString) = Err err →
          errors_Is err ErrInvalidIssuer = false)
  ∧ (¬ accepted →
     value (validateToken v tokenString)
     = Err (wrapErrors ("invalid token issuer. Received: " +:+ issuer)
              [ErrInvalidIssuer]))
  ∧ (jwt.Claims token !! "iss" = None → issuer = "" ∧ ¬ accepted).
Proof.
  intros Hn Hp issuer accepted.
  apply NewValidator_Ok in Hn as (_ & Hi & _).
  pose proof (validateToken_Parsed _ _ _ Hp) as Hval. cbn zeta in Hval.
  fold issuer in Hval. rewrite Hi in Hval.
  assert (slices_Contains
            ["https://sts.windows.net/" +:+ tenantID +:+ "/";
             "https://login.microsoftonline.com/" +:+ tenantID +:+ "/v2.0"]
            issuer = true ↔ accepted) as Hacc.
  { rewrite slices_Contains_elem_of. unfold accepted.
    rewrite !elem_of_cons, elem_of_nil. tauto. }
  destruct (slices_Contains _ issuer) eqn:Hc; cbn [negb] in Hval.
  - assert accepted as Ha by now apply Hacc.
    split; [split; [intros _|intros _; exact Ha]|split].
    + intros err. rewrite Hval.
      destruct (_ && _); [intros [= <-]; reflexivity|discriminate].
    + intros Hna. now destruct Hna.
    + intros Habs.
      assert (issuer = "") as Hi0
        by (unfold issuer, jwt.GetIssuer, jwt.parseString; now rewrite Habs).
      split; [exact Hi0|]. intros _. unfold accepted in Ha.
      rewrite Hi0 in Ha. destruct Ha; discriminate.
  - assert (¬ accepted) as Hna by (intros Ha; apply Hacc in Ha; discriminate).
    split; [split|split].
    + intros Ha. now destruct Hna.
    + intros Hall. exfalso. specialize (Hall _ Hval). discriminate.
    + intros _. exact Hval.
    + intros Habs. split; [|exact Hna].
      unfold issuer, jwt.GetIssuer, jwt.parseString. now rewrite Habs.
Qed.

(** ** Key resolution *)

(** C6.  [keyFunc] first asks the v2 key set; it asks the v1 key set
    exactly when the v2 key set failed, and then returns what the v1 key
    set returned: its key when it has one (so a token known to the v1
    key set only still resolves), its error when both key sets fail. *)
Theorem keyFunc_v2_then_v1 (v : Validator) (token : jwt.Token) :
  (∃ rest, events (keyFunc v token) = KeyfuncCalled JwksV2 token :: rest)
  ∧ (KeyfuncCalled JwksV1 token ∈ events (keyFunc v token)
     ↔ ∃ e2, jwksV2 v token = Err e2)
  ∧ (∀ key, jwksV2 v token = Ok key →
       keyFunc v token = (Ok key, [KeyfuncCalled JwksV2 token]))
  ∧ (∀ e2, jwksV2 v token = Err e2 →
       keyFunc v token
       = (jwksV1 v token,
          [KeyfuncCalled JwksV2 token; KeyfuncCalled JwksV1 token]))
  ∧ (∀ e2 e1, jwksV2 v token = Err e2 → jwksV1 v token = Err e1 →
       value (keyFunc v token) = Err e1)
  ∧ (∀ e2 key, jwksV2 v token = Err e2 → jwksV1 v token = Ok key →
       value (keyFunc v token) = Ok key).
Proof.
  unfold keyFunc. destruct (jwksV2 v token) as [k2|e2]; eff_simpl.
  - split; [eexists; reflexivity|].
    split; [split|].
    + intros Hin. apply list_elem_of_singleton in Hin. discriminate.
    + intros [e2 He]. discriminate.
    + split; [intros key [= <-]; reflexivity|].
      repeat split; intros; discriminate.
  - split; [eexists; reflexivity|].
    split; [split|].
    + eauto.
    + intros _. right. left.
    + split; [intros; discriminate|].
      split; [intros; reflexivity|].
      split; [intros e2' e1 _ ->; reflexivity|intros e2' key _ ->; reflexivity].
Qed.

(** The events of [keyFunc] are calls of the key sets. *)
Lemma keyFunc_events (v : Validator) (token : jwt.Token) :
  Forall (fun e => is_KeyfuncCalled e = true) (events (keyFunc v token)).
Proof.
  unfold keyFunc. destruct (jwksV2 v token); eff_simpl;
    repeat constructor.
Qed.

(** The events of [validateToken] are calls of the key sets and of
    [Verify]; it writes no response and no log record. *)
Lemma validateToken_events_kinds (v : Validator) (tokenString : string) :
  Forall (fun e => is_KeyfuncCalled e || is_VerifyCalled e = true)
         (events (validateToken v tokenString)).
Proof.
  rewrite validateToken_events. unfold jwt_ParseWithClaims.
  destruct (jwt_ParseUnverified tokenString) as [[tok parts]|t e];
    [|constructor].
  destruct (negb _); [constructor|].
  destruct (DecodeSegment _) as [sig|e]; [|constructor].
  cbn zeta. pose proof (keyFunc_events v
    (jwt.mkToken (jwt.Raw tok) (jwt.Method tok) (jwt.Header tok)
       (jwt.Claims tok) sig false)) as Hk.
  destruct (keyFunc v _) as [[key|e] evs]; eff_simpl.
  - destruct (Verify _ _ _ _); [|destruct (Validate _)]; eff_simpl;
      (apply Forall_app; split;
       [eapply Forall_impl; [exact Hk|]; intros x ->; reflexivity
       |repeat constructor]).
  - rewrite app_nil_r. eapply Forall_impl; [exact Hk|].
    intros x ->. reflexivity.
Qed.

(** ** Middleware *)

Lemma responses_app (l k : list Event) :
  responses (l ++ k) = responses l ++ responses k.
Proof. unfold responses. apply omap_app. Qed.

Lemma validateToken_no_response (v : Validator) (tokenString : string) :
  responses (events (validateToken v tokenString)) = [].
Proof.
  pose proof (validateToken_events_kinds v tokenString) as H.
  induction H as [|e l He _ IH]; [reflexivity|].
  unfold responses in *. cbn [omap list_omap]. destruct e; try discriminate; exact IH.
Qed.

(** The errors [validateToken] returns are those of the validation
    stages. *)
Lemma validateToken_error_kinds (v : Validator) (tokenString : string)
    (err : error) :
  value (validateToken v tokenString) = Err err →
  errors_Is err ErrTokenParsingFailed = true
  ∨ errors_Is err ErrInvalidIssuer = true
  ∨ errors_Is err ErrInvalidAudience = true.
Proof.
  destruct (value (jwt_ParseWithClaims tokenString (keyFunc v) ["RS256"]))
    as [token|t e] eqn:Hp.
  - rewrite (validateToken_Parsed _ _ _ Hp). cbn zeta.
    destruct (negb _); [intros [= <-]; right; left; reflexivity|].
    destruct (_ && _); [intros [= <-]; right; right; reflexivity|discriminate].
  - rewrite (validateToken_Failed _ _ _ _ Hp). intros [= <-]. now left.
Qed.

(** C2.  When extraction fails the middleware writes one 401 response
    that carries the extraction error itself, [ErrMissingAuthHeader] or
    [ErrInvalidAuthHeaderFormat]; when [validateToken] fails, with
    whatever validation error, it logs that error and writes one 401
    response that carries [ErrTokenInvalid] and not the error. *)
Theorem Middleware_failure_responses (v : Validator)
    (next : Request → Eff unit) (r : Request) :
  (∀ err, extractBearerToken r = Err err →
     (err = ErrMissingAuthHeader ∨ err = ErrInvalidAuthHeaderFormat)
     ∧ Middleware v next r
       = (tt, [RespondError (mkProblem err 401 (RequestURI r))]))
  ∧ (∀ tokenString err,
       extractBearerToken r = Ok tokenString →
       value (validateToken v tokenString) = Err err →
       Middleware v next r
       = (tt, events (validateToken v tokenString)
              ++ [LoggerWarn (logger v) "Token validation failed" err
                    (RemoteAddr r);
                  RespondError
                    (mkProblem ErrTokenInvalid 401 (RequestURI r))])
       ∧ responses (events (Middleware v next r))
         = [mkProblem ErrTokenInvalid 401 (RequestURI r)]).
Proof.
  split.
  - intros err Hx. split; [now apply extractBearerToken_Err in Hx|].
    unfold Middleware. now rewrite Hx.
  - intros tokenString err Hx Hv.
    assert (Middleware v next r
            = (tt, events (validateToken v tokenString)
                   ++ [LoggerWarn (logger v) "Token validation failed" err
                         (RemoteAddr r);
                       RespondError
                         (mkProblem ErrTokenInvalid 401 (RequestURI r))]))
      as Hm.
    { unfold Middleware. rewrite Hx.
      destruct (validateToken v tokenString) as [res evs]. eff_simpl.
      subst res. reflexivity. }
    split; [exact Hm|].
    rewrite Hm. unfold events at 1. cbn [snd].
    rewrite responses_app, validateToken_no_response. reflexivity.
Qed.

(** * Further properties of the package *)

(** ** Notions used to state them *)

(** The logger an option list leaves configured: that of its last
    [WithLogger], nil without any. *)
Definition configuredLogger (opts : list Option) : option Logger :=
  fold_left (fun acc o => match o with WithLogger lg => lg | _ => acc end)
            opts None.

Definition is_WithAudiences (o : Option) : bool :=
  match o with WithAudiences _ => true | _ => false end.

(** The two discovery URLs of a tenant. *)
Definition jwksV1URL (tenantID : string) : string :=
  "https://login.microsoftonline.com/" +:+ tenantID +:+ "/discovery/keys".
Definition jwksV2URL (tenantID : string) : string :=
  "https://login.microsoftonline.com/" +:+ tenantID +:+ "/discovery/v2.0/keys".

(** The number of occurrences of the byte [c] in [s]. *)
Fixpoint count_byte (c : ascii) (s : string) : nat :=
  match s with
  | EmptyString => 0
  | String x s' => (if Ascii.eqb x c then 1 else 0) + count_byte c s'
  end.

(** A request validates when a token is extracted from it and
    [validateToken] accepts that token. *)
Definition requestValidates (v : Validator) (r : Request) : Prop :=
  ∃ tokenString claims,
    extractBearerToken r = Ok tokenString
    ∧ value (validateToken v tokenString) = Ok claims.

(** The claims [buildUserClaims] reads. *)
Definition readClaims : list string :=
  ["aud"; "iss"; "sub"; "roles"; "name"; "preferred_username"; "tid"; "scp"].

(** ** Errors *)

Lemma error_eqb_refl : ∀ e : error, error_eqb e e = true.
Proof.
  fix IH 1. intros [msg|msg inner]; cbn [error_eqb].
  - apply String.eqb_refl.
  - rewrite String.eqb_refl. cbn [andb].
    induction inner as [|x l IHl]; [reflexivity|].
    rewrite IH. exact IHl.
Qed.

Lemma errors_Is_refl (e : error) : errors_Is e e = true.
Proof. destruct e; cbn [errors_Is]; now rewrite error_eqb_refl. Qed.

(** An error built by [fmt.Errorf] with one [%w] operand wraps it. *)
Lemma errors_Is_wrapped (msg : string) (e : error) :
  errors_Is (wrapErrors msg [e]) e = true.
Proof.
  cbn [errors_Is existsb]. rewrite errors_Is_refl.
  now rewrite orb_true_r.
Qed.

(** ** Audiences *)

(** X11.  [audiencesIntersect] is symmetric in its two lists. *)
Theorem audiencesIntersect_comm (l k : list string) :
  audiencesIntersect l k = audiencesIntersect k l.
Proof.
  apply eq_true_iff_eq. rewrite !audiencesIntersect_spec.
  split; intros (a & H1 & H2); eauto.
Qed.

(** X12.  [audiencesIntersect] depends on the elements of its lists
    only, not on their order or repetitions. *)
Theorem audiencesIntersect_same_elements (l l' k k' : list string) :
  (∀ x, x ∈ l ↔ x ∈ l') →
  (∀ x, x ∈ k ↔ x ∈ k') →
  audiencesIntersect l k = audiencesIntersect l' k'.
Proof.
  intros Hl Hk. apply eq_true_iff_eq. rewrite !audiencesIntersect_spec.
  split; intros (a & H1 & H2); exists a; split;
    first [now apply Hl | now apply Hk].
Qed.

(** ** Claims *)

Lemma parseClaimsString_loop_non_string (key : string) (l : list any)
    (cs : list string) :
  existsb (fun x => negb (is_AString x)) l = true →
  fst (jwt.parseClaimsString_loop key l cs) = [].
Proof.
  revert cs; induction l as [|x l IH]; intros cs; [discriminate|].
  destruct x; cbn [existsb is_AString negb orb jwt.parseClaimsString_loop];
    try reflexivity.
  apply IH.
Qed.

(** X14.  The registered claims of [buildUserClaims]: [Subject] and
    [Issuer] are the claims [sub] and [iss] when these are strings and
    empty otherwise; [Audience] is the one string of a string-valued
    [aud], the elements of a list of strings, and empty when the claim
    is absent or is a list with an element that is not a string. *)
Theorem buildUserClaims_registered_claims (v : Validator)
    (mapClaims : jwt.MapClaims) :
  let c := buildUserClaims v mapClaims in
  optionalString mapClaims "sub" (Subject c)
  ∧ optionalString mapClaims "iss" (Issuer c)
  ∧ (∀ s, mapClaims !! "aud" = Some (AString s) → Audience c = [s])
  ∧ (∀ l, mapClaims !! "aud" = Some (ASlice (map AString l)) →
       Audience c = l)
  ∧ (mapClaims !! "aud" = None → Audience c = [])
  ∧ (∀ l, mapClaims !! "aud" = Some (ASlice l) →
       existsb (fun x => negb (is_AString x)) l = true → Audience c = []).
Proof.
  cbn zeta. unfold buildUserClaims. cbn [Subject Issuer Audience].
  pose proof (GetAudience_strings mapClaims) as (Hs & Hl & Hn).
  assert (∀ key, optionalString mapClaims key
                   (fst (jwt.parseString mapClaims key))) as Hopt.
  { intros key. unfold optionalString, jwt.parseString. split.
    - intros s ->. reflexivity.
    - intros H. destruct (mapClaims !! key) as [[]|]; auto.
      now destruct (H s). }
  repeat split; try apply Hopt; auto.
  intros l Ha Hex. unfold jwt.GetAudience, jwt.parseClaimsString.
  rewrite Ha. now apply parseClaimsString_loop_non_string.
Qed.

(** X13.  A claim that [buildUserClaims] does not read changes nothing
    but [RawClaims]. *)
Theorem buildUserClaims_unrelated_claim (v : Validator)
    (mapClaims : jwt.MapClaims) (key : string) (val : any) :
  key ∉ readClaims →
  buildUserClaims v (<[key := val]> mapClaims)
  = let c := buildUserClaims v mapClaims in
    mkUserClaims (Subject c) (Name c) (PreferredUser c) (TenantID c)
      (Audience c) (Issuer c) (Scopes c) (Roles c) (<[key := val]> mapClaims).
Proof.
  intros Hk. unfold readClaims in Hk.
  assert (∀ k, k ∈ readClaims → <[key := val]> mapClaims !! k = mapClaims !! k)
    as Hlook.
  { intros k Hin. apply lookup_insert_ne. intros ->. now apply Hk. }
  unfold buildUserClaims, jwt.GetAudience, jwt.GetIssuer, jwt.GetSubject,
    jwt.parseClaimsString, jwt.parseString, stringClaim.
  cbn zeta. cbn [Subject Name PreferredUser TenantID Audience Issuer Scopes Roles].
  rewrite !Hlook by (unfold readClaims; set_solver).
  reflexivity.
Qed.

(** ** Construction *)

(** The validator after the options, field by field. *)
Lemma applyOptions_fields (opts : list Option) (v : Validator) :
  applyOptions opts v
  = mkValidator (jwksV1 v) (jwksV2 v) (validIssuers v)
      (configuredAudiences opts (validAudiences v))
      (isAudienceCheckEnabled v && negb (audienceCheckDisabled opts))
      (fold_left
         (fun acc o => match o with WithLogger lg => lg | _ => acc end)
         opts (logger v)).
Proof.
  revert v; induction opts as [|o opts IH]; intros v.
  - destruct v. cbn. now rewrite andb_true_r.
  - unfold applyOptions, configuredAudiences, audienceCheckDisabled in *.
    cbn [fold_left existsb]. rewrite IH.
    destruct o; cbn; try reflexivity.
    now rewrite andb_false_r.
Qed.

(** [NewValidator] with the effect of the options written out. *)
Lemma NewValidator_unfold (tenantID : string) (opts : list Option) :
  NewValidator tenantID opts
  = if String.eqb tenantID "" then
      Err (errorString "el ID de inquilino (tenantID) no puede estar vacío")
    else
      match keyfunc_NewDefaultCtx [jwksV1URL tenantID] with
      | Err err =>
          Err (wrapErrors ("fallo al crear el JWKS para v1: " +:+ Error err)
                 [err])
      | Ok k1 =>
      match keyfunc_NewDefaultCtx [jwksV2URL tenantID] with
      | Err err =>
          Err (wrapErrors ("fallo al crear el JWKS para v2: " +:+ Error err)
                 [err])
      | Ok k2 =>
      match (match configuredLogger opts with
             | Some lg => Ok lg
             | None => zap_NewProduction
             end) with
      | Err err =>
          Err (wrapErrors
                 ("fallo al crear el logger por defecto: " +:+ Error err)
                 [err])
      | Ok lg =>
          if negb (audienceCheckDisabled opts)
             && (length (configuredAudiences opts []) =? 0)
          then
            Err (errorString
                   "la validación de audiencia está habilitada pero no se proporcionaron audiencias válidas")
          else
            Ok (mkValidator k1 k2
                  ["https://sts.windows.net/" +:+ tenantID +:+ "/";
                   "https://login.microsoftonline.com/" +:+ tenantID
                     +:+ "/v2.0"]
                  (configuredAudiences opts [])
                  (negb (audienceCheckDisabled opts)) (Some lg))
      end end end.
Proof.
  unfold NewValidator, jwksV1URL, jwksV2URL.
  destruct (String.eqb tenantID ""); [reflexivity|].
  destruct (keyfunc_NewDefaultCtx _) as [k1|]; [|reflexivity].
  destruct (keyfunc_NewDefaultCtx _) as [k2|]; [|reflexivity].
  cbn zeta. rewrite applyOptions_fields.
  cbn [logger validAudiences isAudienceCheckEnabled jwksV1 jwksV2
       validIssuers andb].
  fold (configuredLogger opts).
  destruct (configuredLogger opts) as [lg|]; [reflexivity|].
  destruct zap_NewProduction; reflexivity.
Qed.

Lemma audienceCheckDisabled_elem_of (opts : list Option) :
  audienceCheckDisabled opts = true ↔ WithoutAudienceValidation ∈ opts.
Proof.
  unfold audienceCheckDisabled. rewrite existsb_exists. split.
  - intros (o & Hin & Ho). destruct o; try discriminate.
    now apply list_elem_of_In.
  - intros Hin. exists WithoutAudienceValidation.
    split; [now apply list_elem_of_In|reflexivity].
Qed.

Lemma configuredAudiences_no_option (opts : list Option) (init : list string) :
  existsb is_WithAudiences opts = false →
  configuredAudiences opts init = init.
Proof.
  revert init; induction opts as [|o opts IH]; intros init H; [reflexivity|].
  cbn [existsb] in H. apply orb_false_iff in H as [Ho H].
  unfold configuredAudiences in *. cbn [fold_left].
  destruct o; try discriminate; now apply IH.
Qed.

Lemma configuredAudiences_last (before rest : list Option)
    (a init : list string) :
  existsb is_WithAudiences rest = false →
  configuredAudiences (before ++ WithAudiences a :: rest) init = a.
Proof.
  intros H. unfold configuredAudiences. rewrite fold_left_app.
  cbn [fold_left]. now apply configuredAudiences_no_option.
Qed.

(** X15.  [NewValidator] returns a validator exactly when the tenant
    identifier is not empty, both key sets are created, a logger is
    configured or the default one is created, and the audience check is
    disabled or some accepted audience is configured. *)
Theorem NewValidator_succeeds_iff (tenantID : string) (opts : list Option) :
  is_Ok (NewValidator tenantID opts) = true
  ↔ tenantID ≠ ""
    ∧ is_Ok (keyfunc_NewDefaultCtx [jwksV1URL tenantID]) = true
    ∧ is_Ok (keyfunc_NewDefaultCtx [jwksV2URL tenantID]) = true
    ∧ (configuredLogger opts ≠ None ∨ is_Ok zap_NewProduction = true)
    ∧ (audienceCheckDisabled opts = true ∨ configuredAudiences opts [] ≠ []).
Proof.
  rewrite NewValidator_unfold.
  destruct (String.eqb tenantID "") eqn:Ht.
  { apply String.eqb_eq in Ht. split; [discriminate|]. now intros [? _]. }
  apply String.eqb_neq in Ht.
  destruct (keyfunc_NewDefaultCtx [jwksV1URL tenantID]) as [k1|];
    [|split; [discriminate|]; now intros (_ & ? & _)].
  destruct (keyfunc_NewDefaultCtx [jwksV2URL tenantID]) as [k2|];
    [|split; [discriminate|]; now intros (_ & _ & ? & _)].
  destruct (configuredLogger opts) as [lg|];
    [|destruct zap_NewProduction as [lg|];
      [|split; [discriminate|];
        intros (_ & _ & _ & [?|?] & _); cbn in *; congruence]];
    (destruct (audienceCheckDisabled opts); cbn [negb andb is_Ok];
     [|destruct (configuredAudiences opts []);
       cbn [length Nat.eqb is_Ok];
       [split; [discriminate|];
        intros (_ & _ & _ & _ & [?|?]); congruence|]]);
    (split; [intros _|reflexivity]);
    repeat split; auto;
    solve [left; congruence | right; congruence
          | left; reflexivity | right; reflexivity].
Qed.

(** X16.  The key sets of a validator are those created for the two
    discovery URLs of the tenant, and its logger is the one configured
    by the options or, without any, the default production logger; it
    is never nil. *)
Theorem NewValidator_key_sets_and_logger (tenantID : string)
    (opts : list Option) (v : Validator) :
  NewValidator tenantID opts = Ok v →
  keyfunc_NewDefaultCtx
    ["https://login.microsoftonline.com/" +:+ tenantID +:+ "/discovery/keys"]
  = Ok (jwksV1 v)
  ∧ keyfunc_NewDefaultCtx
      ["https://login.microsoftonline.com/" +:+ tenantID
         +:+ "/discovery/v2.0/keys"]
    = Ok (jwksV2 v)
  ∧ ∃ lg, logger v = Some lg
          ∧ (configuredLogger opts = Some lg
             ∨ (configuredLogger opts = None ∧ zap_NewProduction = Ok lg)).
Proof.
  rewrite NewValidator_unfold. unfold jwksV1URL, jwksV2URL.
  destruct (String.eqb tenantID ""); [discriminate|].
  destruct (keyfunc_NewDefaultCtx _) as [k1|]; [|discriminate].
  destruct (keyfunc_NewDefaultCtx _) as [k2|]; [|discriminate].
  destruct (configuredLogger opts) as [lg|].
  - destruct (_ && _); [discriminate|]. intros [= <-].
    repeat split. exists lg. split; [reflexivity|now left].
  - destruct zap_NewProduction as [lg|]; [|discriminate].
    destruct (_ && _); [discriminate|]. intros [= <-].
    repeat split. exists lg. split; [reflexivity|now right].
Qed.

(** X17.  The options compose in order: [WithoutAudienceValidation]
    anywhere in the list disables the audience check and nothing
    enables it again; the accepted audiences are those of the last
    [WithAudiences], and there are none without that option. *)
Theorem NewValidator_options (tenantID : string) (opts : list Option)
    (v : Validator) :
  NewValidator tenantID opts = Ok v →
  (isAudienceCheckEnabled v = false ↔ WithoutAudienceValidation ∈ opts)
  ∧ (∀ before a rest,
       opts = before ++ WithAudiences a :: rest →
       existsb is_WithAudiences rest = false →
       validAudiences v = a)
  ∧ (existsb is_WithAudiences opts = false → validAudiences v = []).
Proof.
  rewrite NewValidator_unfold.
  destruct (String.eqb tenantID ""); [discriminate|].
  destruct (keyfunc_NewDefaultCtx _) as [k1|]; [|discriminate].
  destruct (keyfunc_NewDefaultCtx _) as [k2|]; [|discriminate].
  destruct (match configuredLogger opts with
            | Some lg => Ok lg | None => zap_NewProduction end);
    [|discriminate].
  destruct (_ && _); [discriminate|]. intros [= <-].
  cbn [isAudienceCheckEnabled validAudiences]. split; [|split].
  - rewrite <- audienceCheckDisabled_elem_of.
    now destruct (audienceCheckDisabled opts).
  - intros before a' rest -> Hrest. now apply configuredAudiences_last.
  - apply configuredAudiences_no_option.
Qed.

(** X18.  A failure to create a key set or the default logger is
    propagated: for a tenant that is not empty the error returned wraps
    the error of the first of these steps to fail (the v1 key set, then
    the v2 key set, then the logger when none is configured). *)
Theorem NewValidator_propagates (tenantID : string) (opts : list Option) :
  tenantID ≠ "" →
  (∀ err, keyfunc_NewDefaultCtx [jwksV1URL tenantID] = Err err →
     ∃ e, NewValidator tenantID opts = Err e ∧ errors_Is e err = true)
  ∧ (∀ err, is_Ok (keyfunc_NewDefaultCtx [jwksV1URL tenantID]) = true →
       keyfunc_NewDefaultCtx [jwksV2URL tenantID] = Err err →
       ∃ e, NewValidator tenantID opts = Err e ∧ errors_Is e err = true)
  ∧ (∀ err, is_Ok (keyfunc_NewDefaultCtx [jwksV1URL tenantID]) = true →
       is_Ok (keyfunc_NewDefaultCtx [jwksV2URL tenantID]) = true →
       configuredLogger opts = None →
       zap_NewProduction = Err err →
       ∃ e, NewValidator tenantID opts = Err e ∧ errors_Is e err = true).
Proof.
  intros Ht. rewrite NewValidator_unfold.
  apply String.eqb_neq in Ht. rewrite Ht.
  split; [|split].
  - intros err ->. eexists. split; [reflexivity|apply errors_Is_wrapped].
  - intros err H1 ->.
    destruct (keyfunc_NewDefaultCtx [jwksV1URL tenantID]); [|discriminate].
    eexists. split; [reflexivity|apply errors_Is_wrapped].
  - intros err H1 H2 -> ->.
    destruct (keyfunc_NewDefaultCtx [jwksV1URL tenantID]); [|discriminate].
    destruct (keyfunc_NewDefaultCtx [jwksV2URL tenantID]); [|discriminate].
    eexists. split; [reflexivity|apply errors_Is_wrapped].
Qed.

(** ** The parser, read backwards *)





Lemma validateToken_Ok_inv (v : Validator) (tokenString : string)
    (claims : UserClaims) :
  value (validateToken v tokenString) = Ok claims →
  ∃ token,
    value (jwt_ParseWithClaims tokenString (keyFunc v) ["RS256"])
    = jwt.Parsed token
    ∧ claims = buildUserClaims v (jwt.Claims token)
    ∧ slices_Contains (validIssuers v) (Issuer claims) = true
    ∧ (isAudienceCheckEnabled v = true →
       audiencesIntersect (validAudiences v) (Audience claims) = true).
Proof.
  destruct (value (jwt_ParseWithClaims tokenString (keyFunc v) ["RS256"]))
    as [token|t e] eqn:Hp.
  - rewrite (validateToken_Parsed _ _ _ Hp). cbn zeta.
    destruct (slices_Contains _ _) eqn:Hi; cbn [negb]; [|discriminate].
    destruct (isAudienceCheckEnabled v) eqn:He; cbn [andb].
    + destruct (audiencesIntersect _ _) eqn:Ha; cbn [negb]; [|discriminate].
      intros [= <-]. exists token. repeat split; auto.
    + intros [= <-]. exists token. repeat split; auto. discriminate.
  - rewrite (validateToken_Failed _ _ _ _ Hp). discriminate.
Qed.

(** ** Validation *)

(** X3.  [validateToken] accepts a token exactly when the parser
    returns it without error, its issuer is a valid issuer and, with the
    audience check enabled, one of its audiences is a valid audience;
    the claims returned are then those of [buildUserClaims]. *)
Theorem validateToken_Ok_iff (v : Validator) (tokenString : string)
    (claims : UserClaims) :
  value (validateToken v tokenString) = Ok claims
  ↔ ∃ token,
      value (jwt_ParseWithClaims tokenString (keyFunc v) ["RS256"])
      = jwt.Parsed token
      ∧ claims = buildUserClaims v (jwt.Claims token)
      ∧ Issuer claims ∈ validIssuers v
      ∧ (isAudienceCheckEnabled v = true →
         ∃ a, a ∈ Audience claims ∧ a ∈ validAudiences v).
Proof.
  split.
  - intros H. apply validateToken_Ok_inv in H as (token & Hp & Hc & Hi & Ha).
    exists token. repeat split; auto.
    + now apply slices_Contains_elem_of.
    + intros He. now apply audiencesIntersect_spec, Ha.
  - intros (token & Hp & -> & Hi & Ha).
    rewrite (validateToken_Parsed _ _ _ Hp). cbn zeta.
    apply slices_Contains_elem_of in Hi. cbn [Issuer buildUserClaims] in Hi.
    rewrite Hi. cbn [negb].
    destruct (isAudienceCheckEnabled v); cbn [andb]; [|reflexivity].
    specialize (Ha eq_refl). apply audiencesIntersect_spec in Ha.
    cbn [Audience buildUserClaims] in Ha. now rewrite Ha.
Qed.

(** X4.  The claims a validator built by [NewValidator] returns are
    sound for its configuration: their issuer is one of the two issuers
    of the tenant and, unless the options disabled the audience check,
    one of their audiences is an accepted audience. *)
Theorem validated_claims_sound (tenantID : string) (opts : list Option)
    (v : Validator) (tokenString : string) (claims : UserClaims) :
  NewValidator tenantID opts = Ok v →
  value (validateToken v tokenString) = Ok claims →
  (Issuer claims = "https://sts.windows.net/" +:+ tenantID +:+ "/"
   ∨ Issuer claims
     = "https://login.microsoftonline.com/" +:+ tenantID +:+ "/v2.0")
  ∧ (WithoutAudienceValidation ∉ opts →
     ∃ a, a ∈ Audience claims ∧ a ∈ validAudiences v).
Proof.
  intros Hn Hv.
  apply NewValidator_Ok in Hn as (_ & Hi & _ & He & _).
  apply validateToken_Ok_inv in Hv as (token & _ & _ & Hiss & Haud).
  rewrite Hi in Hiss. apply slices_Contains_elem_of in Hiss.
  split.
  - rewrite !elem_of_cons, elem_of_nil in Hiss. tauto.
  - intros Hno. apply audiencesIntersect_spec, Haud. rewrite He.
    destruct (audienceCheckDisabled opts) eqn:Hd; [|reflexivity].
    now apply audienceCheckDisabled_elem_of in Hd.
Qed.


(** X6.  [validateToken] makes one attempt: it has no effect at all,
    or it asks the v2 key set once, the v1 key set once and only after
    the v2 key set failed, and calls [Verify] once, for RS256, and only
    after a key set resolved a key. *)
Theorem validateToken_effects_shape (v : Validator) (tokenString : string) :
  events (validateToken v tokenString) = []
  ∨ ∃ token,
      (events (validateToken v tokenString)
       = [KeyfuncCalled JwksV2 token; KeyfuncCalled JwksV1 token]
       ∧ is_Ok (jwksV2 v token) = false ∧ is_Ok (jwksV1 v token) = false)
      ∨ ∃ text,
          (events (validateToken v tokenString)
           = [KeyfuncCalled JwksV2 token;
              VerifyCalled "RS256" text (jwt.Signature token)]
           ∧ is_Ok (jwksV2 v token) = true)
          ∨ (events (validateToken v tokenString)
             = [KeyfuncCalled JwksV2 token; KeyfuncCalled JwksV1 token;
                VerifyCalled "RS256" text (jwt.Signature token)]
             ∧ is_Ok (jwksV2 v token) = false
             ∧ is_Ok (jwksV1 v token) = true).
Proof.
  rewrite validateToken_events. unfold jwt_ParseWithClaims.
  destruct (jwt_ParseUnverified tokenString) as [[tok parts]|t e];
    [|now left].
  destruct (existsb _ _) eqn:Hm; cbn [negb]; [|now left].
  cbn [existsb] in Hm. rewrite orb_false_r in Hm.
  apply String.eqb_eq in Hm. rewrite <- Hm.
  destruct (DecodeSegment _) as [sig|e]; [|now left].
  cbn zeta. right.
  exists (jwt.mkToken (jwt.Raw tok) "RS256" (jwt.Header tok) (jwt.Claims tok)
            sig false).
  unfold keyFunc.
  destruct (jwksV2 v _) as [k2|e2]; eff_simpl.
  - right. eexists. left.
    destruct (Verify _ _ _ _); [|destruct (Validate _)]; eff_simpl;
      split; reflexivity.
  - destruct (jwksV1 v _) as [k1|e1]; eff_simpl.
    + right. eexists. right.
      destruct (Verify _ _ _ _); [|destruct (Validate _)]; eff_simpl;
        repeat split; reflexivity.
    + left. repeat split; reflexivity.
Qed.

Lemma Cut_count (s : string) (sep : ascii) :
  count_byte sep s
  = match GoStrings.Cut s sep with
    | (_, after, true) => S (count_byte sep after)
    | (_, _, false) => 0
    end.
Proof.
  induction s as [|c s IH]; [reflexivity|].
  cbn [count_byte GoStrings.Cut].
  destruct (Ascii.eqb c sep); [reflexivity|].
  rewrite IH. destruct (GoStrings.Cut s sep) as [[b a] f].
  now destruct f.
Qed.

(** [splitToken] succeeds exactly on the strings with two delimiters. *)
Lemma splitToken_count (s : string) :
  snd (jwt.splitToken s) = true ↔ count_byte "." s = 2.
Proof.
  unfold jwt.splitToken. rewrite (Cut_count s ".").
  destruct (GoStrings.Cut s ".") as [[h r1] ok1].
  destruct ok1; cbn [negb snd]; [|split; discriminate].
  rewrite (Cut_count r1 ".").
  destruct (GoStrings.Cut r1 ".") as [[c r2] ok2].
  destruct ok2; cbn [negb snd]; [|split; discriminate].
  rewrite (Cut_count r2 ".").
  destruct (GoStrings.Cut r2 ".") as [[g r3] un].
  destruct un; cbn [snd]; split; intros; try discriminate; auto.
Qed.

(** X7.  A token string that does not have exactly two delimiters, the
    empty string included, is rejected as malformed without any
    effect. *)
Theorem validateToken_wrong_segment_count (v : Validator)
    (tokenString : string) :
  count_byte "." tokenString ≠ 2 →
  validateToken v tokenString
  = (Err (wrapErrors
            "failed to parse token: token is malformed: token contains an invalid number of segments"
            [ErrTokenParsingFailed]),
     []).
Proof.
  intros Hc.
  assert (snd (jwt.splitToken tokenString) = false) as Hs.
  { destruct (snd (jwt.splitToken tokenString)) eqn:Hs; [|reflexivity].
    now apply splitToken_count in Hs. }
  unfold validateToken.
  rewrite (jwt_ParseWithClaims_unverified_failed tokenString (keyFunc v)
             ["RS256"] None
             (jwt.newError "token contains an invalid number of segments"
                jwt.ErrTokenMalformed [])).
  - reflexivity.
  - unfold jwt_ParseUnverified.
    destruct (jwt.splitToken tokenString) as [ps ok]. cbn [snd] in Hs.
    now rewrite Hs.
Qed.

(** X8.  When neither key set resolves the key of an RS256 token,
    [validateToken] reports the error of the v1 key set inside its
    parsing error, after asking the v2 and then the v1 key set, and
    [Verify] is not called. *)
Theorem validateToken_unresolved_key (v : Validator) (tokenString : string)
    (tok : jwt.Token) (parts : list string) (signature : string)
    (e2 e1 : error) :
  jwt_ParseUnverified tokenString = jwt.Parsed (tok, parts) →
  jwt.Method tok = "RS256" →
  DecodeSegment (nth 2 parts "") = Ok signature →
  jwksV2 v (jwt.mkToken (jwt.Raw tok) (jwt.Method tok) (jwt.Header tok)
              (jwt.Claims tok) signature false) = Err e2 →
  jwksV1 v (jwt.mkToken (jwt.Raw tok) (jwt.Method tok) (jwt.Header tok)
              (jwt.Claims tok) signature false) = Err e1 →
  validateToken v tokenString
  = (Err (wrapErrors
            ("failed to parse token: token is unverifiable: error while executing keyfunc: "
               +:+ Error e1)
            [ErrTokenParsingFailed]),
     [KeyfuncCalled JwksV2
        (jwt.mkToken (jwt.Raw tok) (jwt.Method tok) (jwt.Header tok)
           (jwt.Claims tok) signature false);
      KeyfuncCalled JwksV1
        (jwt.mkToken (jwt.Raw tok) (jwt.Method tok) (jwt.Header tok)
           (jwt.Claims tok) signature false)]).
Proof.
  intros Hu Hm Hd H2 H1.
  unfold validateToken, jwt_ParseWithClaims, keyFunc.
  rewrite Hu, Hm, Hd. cbn [existsb String.eqb negb orb]. cbn zeta.
  rewrite <- Hm, H2. eff_simpl. rewrite H1. reflexivity.
Qed.

(** X9.  A token whose signature verifies but whose claims the claims
    validator rejects (an expired token, for one) is rejected with a
    parsing error that carries the validator's message; the rejection
    comes after [Verify] was called. *)
Theorem validateToken_invalid_claims (v : Validator) (tokenString : string)
    (tok : jwt.Token) (parts : list string) (signature : string)
    (key : Key) (cerr : error) :
  jwt_ParseUnverified tokenString = jwt.Parsed (tok, parts) →
  jwt.Method tok = "RS256" →
  DecodeSegment (nth 2 parts "") = Ok signature →
  value (keyFunc v
           (jwt.mkToken (jwt.Raw tok) (jwt.Method tok) (jwt.Header tok)
              (jwt.Claims tok) signature false)) = Ok key →
  Verify "RS256" (GoStrings.Join (firstn 2 parts) ".") signature key = None →
  Validate (jwt.Claims tok) = Some cerr →
  value (validateToken v tokenString)
  = Err (wrapErrors
           ("failed to parse token: token has invalid claims: "
              +:+ Error cerr)
           [ErrTokenParsingFailed])
  ∧ VerifyCalled "RS256" (GoStrings.Join (firstn 2 parts) ".") signature
    ∈ events (validateToken v tokenString).
Proof.
  intros Hu Hm Hd Hk Hv Hc.
  assert (existsb (fun m => String.eqb m (jwt.Method tok)) ["RS256"] = true)
    as Hex by (rewrite Hm; reflexivity).
  assert (validateToken v tokenString
          = (Err (wrapErrors
                    ("failed to parse token: token has invalid claims: "
                       +:+ Error cerr)
                    [ErrTokenParsingFailed]),
             events (keyFunc v
                       (jwt.mkToken (jwt.Raw tok) (jwt.Method tok)
                          (jwt.Header tok) (jwt.Claims tok) signature false))
               ++ [VerifyCalled "RS256"
                     (GoStrings.Join (firstn 2 parts) ".") signature]))
    as Hfull.
  { unfold validateToken, jwt_ParseWithClaims.
    rewrite Hu, Hex, Hd. cbn [negb]. cbn zeta.
    destruct (keyFunc v _) as [got evs]. eff_simpl. subst got.
    rewrite Hm, Hv. cbn [jwt.Claims]. rewrite Hc. eff_simpl.
    now rewrite !app_nil_r. }
  rewrite Hfull. split; [reflexivity|].
  unfold events at 1. cbn [snd]. apply elem_of_app. right. left.
Qed.

(** X10.  An error of [validateToken] wraps exactly one of
    [ErrTokenParsingFailed], [ErrInvalidIssuer] and [ErrInvalidAudience],
    according to the stage that failed: the parser, the issuer check,
    or the audience check of a token whose issuer is valid.  It wraps
    neither [ErrTokenInvalid] nor an extraction error. *)
Theorem validateToken_error_taxonomy (v : Validator) (tokenString : string)
    (err : error) :
  value (validateToken v tokenString) = Err err →
  ((errors_Is err ErrTokenParsingFailed = true
    ∧ errors_Is err ErrInvalidIssuer = false
    ∧ errors_Is err ErrInvalidAudience = false
    ∧ ∃ t e, value (jwt_ParseWithClaims tokenString (keyFunc v) ["RS256"])
             = jwt.Failed t e)
   ∨ (errors_Is err ErrTokenParsingFailed = false
      ∧ errors_Is err ErrInvalidIssuer = true
      ∧ errors_Is err ErrInvalidAudience = false
      ∧ ∃ token,
          value (jwt_ParseWithClaims tokenString (keyFunc v) ["RS256"])
          = jwt.Parsed token
          ∧ fst (jwt.GetIssuer (jwt.Claims token)) ∉ validIssuers v)
   ∨ (errors_Is err ErrTokenParsingFailed = false
      ∧ errors_Is err ErrInvalidIssuer = false
      ∧ errors_Is err ErrInvalidAudience = true
      ∧ ∃ token,
          value (jwt_ParseWithClaims tokenString (keyFunc v) ["RS256"])
          = jwt.Parsed token
          ∧ fst (jwt.GetIssuer (jwt.Claims token)) ∈ validIssuers v
          ∧ isAudienceCheckEnabled v = true
          ∧ ¬ ∃ a, a ∈ fst (jwt.GetAudience (jwt.Claims token))
                   ∧ a ∈ validAudiences v))
  ∧ errors_Is err ErrTokenInvalid = false
  ∧ errors_Is err ErrMissingAuthHeader = false
  ∧ errors_Is err ErrInvalidAuthHeaderFormat = false.
Proof.
  destruct (value (jwt_ParseWithClaims tokenString (keyFunc v) ["RS256"]))
    as [token|t e] eqn:Hp.
  - rewrite (validateToken_Parsed _ _ _ Hp). cbn zeta.
    destruct (slices_Contains _ _) eqn:Hi; cbn [negb].
    + destruct (isAudienceCheckEnabled v) eqn:He; cbn [andb]; [|discriminate].
      destruct (audiencesIntersect _ _) eqn:Ha; cbn [negb]; [discriminate|].
      intros [= <-]. split; [|repeat split].
      right. right. repeat split. exists token. repeat split.
      * now apply slices_Contains_elem_of.
      * intros Hex. apply audiencesIntersect_spec in Hex. congruence.
    + intros [= <-]. split; [|repeat split].
      right. left. repeat split. exists token. split; [reflexivity|].
      intros Hin. apply slices_Contains_elem_of in Hin. congruence.
  - rewrite (validateToken_Failed _ _ _ _ Hp). intros [= <-].
    split; [|repeat split]. left. repeat split. eauto.
Qed.

(** ** Middleware *)

(** X1.  When the token of a request validates, the middleware writes
    no response: after the effects of validation it logs the claims and
    runs the next handler on the request whose context holds these
    claims, where [GetClaimsFromContext] finds them; the header, the
    remote address and the request URI are those of the request. *)
Theorem Middleware_success_forwards (v : Validator)
    (next : Request → Eff unit) (r : Request) (tokenString : string)
    (claims : UserClaims) :
  extractBearerToken r = Ok tokenString →
  value (validateToken v tokenString) = Ok claims →
  Middleware v next r
  = (value (next (WithContext r claims)),
     events (validateToken v tokenString)
       ++ [LoggerInfo (logger v) "Token validated" claims]
       ++ events (next (WithContext r claims)))
  ∧ responses (events (validateToken v tokenString)
                 ++ [LoggerInfo (logger v) "Token validated" claims]) = []
  ∧ GetClaimsFromContext (WithContext r claims) = (Some claims, true)
  ∧ ReqHeader (WithContext r claims) = ReqHeader r
  ∧ RemoteAddr (WithContext r claims) = RemoteAddr r
  ∧ RequestURI (WithContext r claims) = RequestURI r.
Proof.
  intros Hx Hv. split; [|split; [|repeat split]].
  - unfold Middleware. rewrite Hx.
    destruct (validateToken v tokenString) as [res evs]. eff_simpl.
    subst res. destruct (next _) as [u evn]. reflexivity.
  - rewrite responses_app, validateToken_no_response. reflexivity.
Qed.

(** X2.  When the request does not validate the next handler is not
    run: the middleware behaves the same whatever that handler is. *)
Theorem Middleware_failure_skips_next (v : Validator)
    (next next' : Request → Eff unit) (r : Request) :
  ¬ requestValidates v r →
  Middleware v next r = Middleware v next' r.
Proof.
  intros Hno. unfold Middleware.
  destruct (extractBearerToken r) as [tokenString|err] eqn:Hx; [|reflexivity].
  destruct (validateToken v tokenString) as [[claims|err] evs] eqn:Hv;
    [|reflexivity].
  exfalso. apply Hno. exists tokenString, claims. split; [exact Hx|].
  unfold value. now rewrite Hv.
Qed.

End Pipeline.

(** * A concrete scenario

    Tenant [contoso] with the accepted audience [api://myapp].  The
    operations of the other packages are instantiated by small tables:
    a segment stands for its decoded text, the documents are named, a
    signature verifies against a key when it is that key prefixed by
    [signed-by-], and no time claim is ever out of range.  The v1 key
    set holds the key [k1] only and the v2 key set the key [k2] only. *)

Module Scenario.

Definition DecodeSegment (seg : string) : result string :=
  if String.eqb seg "!" then Err (errorString "illegal base64 data")
  else Ok seg.

Definition issuerV1 : string := "https://sts.windows.net/contoso/".
Definition issuerV2 : string :=
  "https://login.microsoftonline.com/contoso/v2.0".

Definition claimsOf (iss : string) (aud : any) : gmap string any :=
  <["iss" := AString iss]>
    (<["aud" := aud]>
       (<["sub" := AString "u1"]>
          (<["name" := AString "Alice"]>
             (<["roles" := ASlice [AString "Admin"]]> ∅)))).

Definition headerOf (alg kid : string) : gmap string any :=
  <["alg" := AString alg]> (<["kid" := AString kid]> ∅).

Definition json_Unmarshal (doc : string) : result (gmap string any) :=
  if String.eqb doc "hdr-rs256-k2" then Ok (headerOf "RS256" "k2")
  else if String.eqb doc "hdr-rs256-k1" then Ok (headerOf "RS256" "k1")
  else if String.eqb doc "hdr-hs256-k2" then Ok (headerOf "HS256" "k2")
  else if String.eqb doc "claims-alice" then
    Ok (claimsOf issuerV2 (ASlice [AString "api://myapp"]))
  else if String.eqb doc "claims-evil" then
    Ok (claimsOf "https://evil.example/contoso/v2.0"
          (ASlice [AString "api://myapp"]))
  else if String.eqb doc "claims-other" then
    Ok (claimsOf issuerV2 (ASlice [AString "api://other"; AString "api://x"]))
  else if String.eqb doc "claims-anonymous" then
    Ok (<["aud" := AString "api://myapp"]> ∅)
  else Err (errorString "invalid character").

Definition Verify (alg signingString signature key : string) : option error :=
  if String.eqb signature ("signed-by-" +:+ key) then None
  else Some (errorString "crypto/rsa: verification error").

Definition Validate (claims : jwt.MapClaims) : option error := None.

(** The [Keyfunc] of a key set: the key stored under the [kid] of the
    token's header. *)
Definition keySet (keys : gmap string string) (token : jwt.Token)
  : result string :=
  match jwt.Header token !! "kid" with
  | Some (AString kid) =>
      match keys !! kid with
      | Some key => Ok key
      | None => Err (errorString ("key not found: " +:+ kid))
      end
  | _ => Err (errorString "could not find kid in JWT header")
  end.

Definition keysV1 : gmap string string := <["k1" := "key1"]> ∅.
Definition keysV2 : gmap string string := <["k2" := "key2"]> ∅.

Definition keyfunc_NewDefaultCtx (urls : list string)
  : result (jwt.Token → result string) :=
  match urls with
  | [url] =>
      if String.eqb url
           "https://login.microsoftonline.com/contoso/discovery/keys"
      then Ok (keySet keysV1)
      else if String.eqb url
                "https://login.microsoftonline.com/contoso/discovery/v2.0/keys"
      then Ok (keySet keysV2)
      else Err (errorString "failed to fetch the key set")
  | _ => Err (errorString "failed to fetch the key set")
  end.

Definition zap_NewProduction : result Logger := Ok 0.

(** The validator of the scenario, and the same with the audience
    check disabled. *)
Definition contoso : @Validator string :=
  mkValidator (keySet keysV1) (keySet keysV2) [issuerV1; issuerV2]
    ["api://myapp"] true (Some 0).

Definition contosoAnyAudience : @Validator string :=
  mkValidator (keySet keysV1) (keySet keysV2) [issuerV1; issuerV2]
    [] false (Some 0).

Definition validate (v : @Validator string) (tokenString : string)
  : Eff (result UserClaims) :=
  validateToken DecodeSegment json_Unmarshal Verify Validate v tokenString.

Definition parse (v : @Validator string) (tokenString : string)
  : Eff (jwt.parsed jwt.Token) :=
  jwt_ParseWithClaims DecodeSegment json_Unmarshal Verify Validate
    tokenString (keyFunc v) ["RS256"].

Definition goodToken : string := "hdr-rs256-k2.claims-alice.signed-by-key2".
Definition v1Token : string := "hdr-rs256-k1.claims-alice.signed-by-key1".
Definition forgedToken : string := "hdr-rs256-k2.claims-alice.forged".
Definition hs256Token : string := "hdr-hs256-k2.claims-alice.signed-by-key2".
Definition evilToken : string := "hdr-rs256-k2.claims-evil.signed-by-key2".
Definition otherAudToken : string := "hdr-rs256-k2.claims-other.signed-by-key2".
Definition anonymousToken : string :=
  "hdr-rs256-k2.claims-anonymous.signed-by-key2".

(** The token the parser builds for [goodToken], before and after its
    validation. *)
Definition aliceToken (signature : string) (valid : bool) : jwt.Token :=
  jwt.mkToken goodToken "RS256" (headerOf "RS256" "k2")
    (claimsOf issuerV2 (ASlice [AString "api://myapp"])) signature valid.

Definition request (authorization : list string) : Request :=
  mkRequest (<["Authorization" := authorization]> ∅) "10.0.0.7:4711"
    "/api/protected" None.

Definition next (r : Request) : Eff unit := ret tt.

Example NewValidator_contoso :
  NewValidator keyfunc_NewDefaultCtx zap_NewProduction "contoso"
    [WithAudiences ["api://myapp"]] = Ok contoso.
Proof. reflexivity. Qed.

Example NewValidator_contosoAnyAudience :
  NewValidator keyfunc_NewDefaultCtx zap_NewProduction "contoso"
    [WithoutAudienceValidation] = Ok contosoAnyAudience.
Proof. reflexivity. Qed.

Example validate_goodToken :
  validate contoso goodToken
  = (Ok (mkUserClaims "u1" "Alice" "" "" ["api://myapp"] issuerV2 "" ["Admin"]
           (claimsOf issuerV2 (ASlice [AString "api://myapp"]))),
     [KeyfuncCalled JwksV2 (aliceToken "signed-by-key2" false);
      VerifyCalled "RS256" "hdr-rs256-k2.claims-alice" "signed-by-key2"]).
Proof. vm_compute. reflexivity. Qed.

(** ** Extraction and the middleware on concrete requests *)

Example extract_mixed_case :
  extractBearerToken (request ["bEaReR abc.def.ghi"]) = Ok "abc.def.ghi".
Proof. reflexivity. Qed.

Example extract_absent :
  extractBearerToken (mkRequest ∅ "10.0.0.7:4711" "/api/protected" None)
  = Err ErrMissingAuthHeader.
Proof. reflexivity. Qed.

Example extract_empty_value :
  extractBearerToken (request [""]) = Err ErrMissingAuthHeader.
Proof. reflexivity. Qed.

Example extract_other_scheme :
  extractBearerToken (request ["Basic dXNlcjpwYXNz"])
  = Err ErrInvalidAuthHeaderFormat.
Proof. reflexivity. Qed.

(** C7, as stated, fails on the header value [Bearer ]: the value is
    present and starts with the scheme, yet extraction does not return
    the (empty) text after it. *)
Lemma extract_bare_scheme_rejected :
  http.Header_Get (ReqHeader (request ["Bearer "])) "Authorization" = "Bearer "
  ∧ GoStrings.EqualFold (GoStrings.prefix 7 "Bearer ") "Bearer " = true
  ∧ extractBearerToken (request ["Bearer "]) = Err ErrInvalidAuthHeaderFormat
  ∧ extractBearerToken (request ["Bearer "]) ≠ Ok (GoStrings.suffix 7 "Bearer ").
Proof. repeat split. discriminate. Qed.

Example Middleware_missing_header :
  Middleware DecodeSegment json_Unmarshal Verify Validate contoso next
    (mkRequest ∅ "10.0.0.7:4711" "/api/protected" None)
  = (tt, [RespondError
            (mkProblem ErrMissingAuthHeader 401 "/api/protected")]).
Proof. reflexivity. Qed.

Example Middleware_evil_issuer :
  Middleware DecodeSegment json_Unmarshal Verify Validate contoso next
    (request ["Bearer " +:+ evilToken])
  = (tt,
     [KeyfuncCalled JwksV2
        (jwt.mkToken evilToken "RS256" (headerOf "RS256" "k2")
           (claimsOf "https://evil.example/contoso/v2.0"
              (ASlice [AString "api://myapp"])) "signed-by-key2" false);
      VerifyCalled "RS256" "hdr-rs256-k2.claims-evil" "signed-by-key2";
      LoggerWarn (Some 0) "Token validation failed"
        (wrapErrors
           "invalid token issuer. Received: https://evil.example/contoso/v2.0"
           [ErrInvalidIssuer])
        "10.0.0.7:4711";
      RespondError (mkProblem ErrTokenInvalid 401 "/api/protected")]).
Proof. vm_compute. reflexivity. Qed.

(** ** Key resolution *)

Example keyFunc_v1_only :
  keyFunc contoso (jwt.mkToken v1Token "RS256" (headerOf "RS256" "k1") ∅ "" false)
  = (Ok "key1",
     [KeyfuncCalled JwksV2
        (jwt.mkToken v1Token "RS256" (headerOf "RS256" "k1") ∅ "" false);
      KeyfuncCalled JwksV1
        (jwt.mkToken v1Token "RS256" (headerOf "RS256" "k1") ∅ "" false)]).
Proof. vm_compute. reflexivity. Qed.

Example keyFunc_unknown_key :
  value (keyFunc contoso
           (jwt.mkToken "" "RS256" (headerOf "RS256" "k9") ∅ "" false))
  = Err (errorString "key not found: k9")
  ∧ keySet keysV1 (jwt.mkToken "" "RS256" (headerOf "RS256" "k9") ∅ "" false)
    = Err (errorString "key not found: k9").
Proof. vm_compute. split; reflexivity. Qed.

Example validate_v1Token : is_Ok (value (validate contoso v1Token)) = true.
Proof. vm_compute. reflexivity. Qed.

(** ** Claims normalisation and construction *)

Example roles_example :
  Roles (buildUserClaims contoso
           (<["roles" := ASlice [AString "Admin"; AFloat64 42%Q;
                                 AString "Reader"]]> ∅))
  = ["Admin"; "Reader"].
Proof. vm_compute. reflexivity. Qed.

Example optional_claims_absent :
  buildUserClaims contoso (<["name" := AFloat64 7%Q]> ∅)
  = mkUserClaims "" "" "" "" [] "" "" [] (<["name" := AFloat64 7%Q]> ∅).
Proof. vm_compute. reflexivity. Qed.

Example NewValidator_empty_tenant :
  NewValidator keyfunc_NewDefaultCtx zap_NewProduction ""
    [WithAudiences ["api://myapp"]]
  = Err (errorString "el ID de inquilino (tenantID) no puede estar vacío").
Proof. reflexivity. Qed.

Example NewValidator_no_audience :
  is_Ok (NewValidator keyfunc_NewDefaultCtx zap_NewProduction "contoso" [])
  = false
  ∧ is_Ok (NewValidator keyfunc_NewDefaultCtx zap_NewProduction "contoso"
             [WithAudiences ["api://myapp"]; WithAudiences []])
    = false.
Proof. split; reflexivity. Qed.

(** ** The properties at the tokens of the scenario *)

(** C1, as stated, fails on [forgedToken]: the v2 key set resolves its
    key, the signature does not verify against that key, the parser
    returns the token with its [Valid] flag unset, and [validateToken]
    returns an error that is not [ErrTokenInvalid]. *)
Lemma forged_signature_not_ErrTokenInvalid :
  value (keyFunc contoso (aliceToken "forged" false)) = Ok "key2"
  ∧ Verify "RS256" "hdr-rs256-k2.claims-alice" "forged" "key2"
    = Some (errorString "crypto/rsa: verification error")
  ∧ (∃ token err,
       value (parse contoso forgedToken) = jwt.Failed (Some token) err
       ∧ jwt.Valid token = false)
  ∧ value (validate contoso forgedToken)
    = Err (wrapErrors
             "failed to parse token: token signature is invalid: crypto/rsa: verification error"
             [ErrTokenParsingFailed])
  ∧ value (validate contoso forgedToken) ≠ Err ErrTokenInvalid.
Proof.
  split; [vm_compute; reflexivity|].
  split; [vm_compute; reflexivity|].
  split; [eexists _, _; split; vm_compute; reflexivity|].
  split; [vm_compute; reflexivity|].
  vm_compute. discriminate.
Qed.

(** The amended C1 at [forgedToken]. *)
Lemma validateToken_signature_failure_witness :
  value (validate contoso forgedToken)
  = Err (wrapErrors
           ("failed to parse token: token signature is invalid: "
              +:+ Error (errorString "crypto/rsa: verification error"))
           [ErrTokenParsingFailed]).
Proof.
  refine (proj1 (validateToken_signature_failure
                   DecodeSegment json_Unmarshal Verify Validate
                   contoso forgedToken
                   (jwt.mkToken forgedToken "RS256" (headerOf "RS256" "k2")
                      (claimsOf issuerV2 (ASlice [AString "api://myapp"]))
                      "" false)
                   ["hdr-rs256-k2"; "claims-alice"; "forged"] "forged" "key2"
                   (errorString "crypto/rsa: verification error")
                   _ _ _ _ _)); vm_compute; reflexivity.
Defined.

(** C3 at [hs256Token]. *)
Lemma validateToken_rejects_other_algorithms_witness :
  ∃ err, validate contoso hs256Token = (Err err, [])
         ∧ errors_Is err ErrTokenParsingFailed = true.
Proof.
  refine (validateToken_rejects_other_algorithms
            DecodeSegment json_Unmarshal Verify Validate contoso hs256Token
            "hdr-hs256-k2" "claims-alice" "signed-by-key2"
            "hdr-hs256-k2" "claims-alice"
            (headerOf "HS256" "k2")
            (claimsOf issuerV2 (ASlice [AString "api://myapp"]))
            _ _ _ _ _ _); try (vm_compute; reflexivity).
  vm_compute. discriminate.
Defined.

Example validate_hs256Token :
  validate contoso hs256Token
  = (Err (wrapErrors
            "failed to parse token: token signature is invalid: signing method HS256 is invalid"
            [ErrTokenParsingFailed]),
     []).
Proof. vm_compute. reflexivity. Qed.

(** C4 at [goodToken]. *)
Lemma validateToken_audience_check_witness :
  value (validate contoso goodToken)
  = Ok (buildUserClaims contoso
          (claimsOf issuerV2 (ASlice [AString "api://myapp"]))).
Proof.
  refine (proj1 (proj1 (validateToken_audience_check
                          DecodeSegment json_Unmarshal Verify Validate
                          contoso goodToken
                          (aliceToken "signed-by-key2" true) _ _) _) _);
    try (vm_compute; reflexivity).
  exists "api://myapp". split; vm_compute; left.
Defined.

(** A list with an element that is not a string is no audience list:
    [GetAudience] reads it as empty. *)
Example GetAudience_mixed :
  fst (jwt.GetAudience
         (<["aud" := ASlice [AString "api://myapp"; AFloat64 42%Q]]> ∅))
  = [].
Proof. vm_compute. reflexivity. Qed.

Example validate_otherAudToken :
  value (validate contoso otherAudToken)
  = Err (wrapErrors
           "invalid token audience. Received: [api://other api://x]"
           [ErrInvalidAudience])
  ∧ is_Ok (value (validate contosoAnyAudience otherAudToken)) = true
  ∧ is_Ok (value (validate contoso anonymousToken)) = false.
Proof. repeat split; vm_compute; reflexivity. Qed.

(** C5 at [evilToken]. *)
Lemma validateToken_issuer_check_witness :
  value (validate contoso evilToken)
  = Err (wrapErrors
           ("invalid token issuer. Received: "
              +:+ "https://evil.example/contoso/v2.0")
           [ErrInvalidIssuer]).
Proof.
  refine (proj1 (proj2 (validateToken_issuer_check
                          DecodeSegment json_Unmarshal Verify Validate
                          keyfunc_NewDefaultCtx zap_NewProduction
                          "contoso" [WithAudiences ["api://myapp"]]
                          contoso evilToken
                          (jwt.mkToken evilToken "RS256" (headerOf "RS256" "k2")
                             (claimsOf "https://evil.example/contoso/v2.0"
                                (ASlice [AString "api://myapp"]))
                             "signed-by-key2" true)
                          _ _)) _);
    try (vm_compute; reflexivity).
  vm_compute. intros [H|H]; discriminate.
Defined.

End Scenario.

(** * The further properties in the scenario *)

Module ScenarioMore.

Import Scenario.

(** The claims of [goodToken], normalised. *)
Definition aliceClaims : UserClaims :=
  mkUserClaims "u1" "Alice" "" "" ["api://myapp"] issuerV2 "" ["Admin"]
    (claimsOf issuerV2 (ASlice [AString "api://myapp"])).

(** A network on which no key set can be fetched. *)
Definition offline (urls : list string)
  : result (jwt.Token → result string) :=
  Err (errorString "dial tcp: no route to host").

(** The validator of the scenario with two empty key sets. *)
Definition noKeys : @Validator string :=
  mkValidator (keySet ∅) (keySet ∅) [issuerV1; issuerV2]
    ["api://myapp"] true (Some 0).

(** A claims validator for which every token is expired. *)
Definition expired (claims : jwt.MapClaims) : option error :=
  Some (errorString "token is expired").

(** A next handler that writes a response of its own. *)
Definition teapot (r : Request) : Eff unit :=
  emit (RespondError (mkProblem (errorString "downstream") 418 (RequestURI r))).

(** What the parser built for [goodToken] before it asks for the key. *)
Definition unverifiedAlice : jwt.Token :=
  jwt.mkToken goodToken "RS256" (headerOf "RS256" "k2")
    (claimsOf issuerV2 (ASlice [AString "api://myapp"])) "" false.

Definition goodParts : list string :=
  ["hdr-rs256-k2"; "claims-alice"; "signed-by-key2"].

Example goodToken_validates :
  value (validate contoso goodToken) = Ok aliceClaims.
Proof. vm_compute. reflexivity. Qed.

(** The validator built from options given in a mixed order. *)
Definition mixedOptions : @Validator string :=
  mkValidator (keySet keysV1) (keySet keysV2) [issuerV1; issuerV2]
    ["api://myapp"; "api://b"] false (Some 7).

Example NewValidator_mixed_options :
  NewValidator keyfunc_NewDefaultCtx zap_NewProduction "contoso"
    [WithAudiences ["api://old"]; WithoutAudienceValidation;
     WithLogger (Some 7); WithAudiences ["api://myapp"; "api://b"]]
  = Ok mixedOptions.
Proof. reflexivity. Qed.

(** X12 on lists that differ by order and repetition. *)
Lemma audiencesIntersect_same_elements_witness :
  audiencesIntersect ["a"; "b"; "a"] ["c"; "b"]
  = audiencesIntersect ["b"; "a"] ["b"; "c"; "c"].
Proof.
  apply audiencesIntersect_same_elements; intros x;
    rewrite !elem_of_cons, !elem_of_nil; tauto.
Defined.

(** X13 for a [nonce] claim. *)
Lemma buildUserClaims_unrelated_claim_witness :
  buildUserClaims contoso
    (<["nonce" := AString "n-0S6_WzA2Mj"]>
       (claimsOf issuerV2 (ASlice [AString "api://myapp"])))
  = mkUserClaims "u1" "Alice" "" "" ["api://myapp"] issuerV2 "" ["Admin"]
      (<["nonce" := AString "n-0S6_WzA2Mj"]>
         (claimsOf issuerV2 (ASlice [AString "api://myapp"]))).
Proof.
  refine (buildUserClaims_unrelated_claim
            DecodeSegment json_Unmarshal Verify Validate contoso
            (claimsOf issuerV2 (ASlice [AString "api://myapp"]))
            "nonce" (AString "n-0S6_WzA2Mj") _).
  unfold readClaims. rewrite !not_elem_of_cons.
  repeat split; try discriminate. apply not_elem_of_nil.
Defined.

(** X16 for the validator of the scenario. *)
Lemma NewValidator_key_sets_and_logger_witness :
  keyfunc_NewDefaultCtx
    ["https://login.microsoftonline.com/" +:+ "contoso" +:+ "/discovery/keys"]
  = Ok (jwksV1 contoso)
  ∧ keyfunc_NewDefaultCtx
      ["https://login.microsoftonline.com/" +:+ "contoso"
         +:+ "/discovery/v2.0/keys"]
    = Ok (jwksV2 contoso)
  ∧ ∃ lg, logger contoso = Some lg
          ∧ (configuredLogger [WithAudiences ["api://myapp"]] = Some lg
             ∨ (configuredLogger [WithAudiences ["api://myapp"]] = None
                ∧ zap_NewProduction = Ok lg)).
Proof.
  refine (NewValidator_key_sets_and_logger keyfunc_NewDefaultCtx
            zap_NewProduction "contoso" [WithAudiences ["api://myapp"]]
            contoso _).
  reflexivity.
Defined.

(** X17 for options given in a mixed order. *)
Lemma NewValidator_options_witness :
  isAudienceCheckEnabled mixedOptions = false
  ∧ validAudiences mixedOptions = ["api://myapp"; "api://b"].
Proof.
  destruct (NewValidator_options keyfunc_NewDefaultCtx zap_NewProduction
              "contoso"
              [WithAudiences ["api://old"]; WithoutAudienceValidation;
               WithLogger (Some 7); WithAudiences ["api://myapp"; "api://b"]]
              _ NewValidator_mixed_options) as (Hd & Ha & _).
  split.
  - apply Hd. right. left.
  - apply (Ha [WithAudiences ["api://old"]; WithoutAudienceValidation;
               WithLogger (Some 7)] _ []); reflexivity.
Defined.

(** X18 on a network without route. *)
Lemma NewValidator_propagates_witness :
  ∃ e, NewValidator offline zap_NewProduction "contoso"
         [WithAudiences ["api://myapp"]] = Err e
       ∧ errors_Is e (errorString "dial tcp: no route to host") = true.
Proof.
  refine (proj1 (NewValidator_propagates offline zap_NewProduction "contoso"
                   [WithAudiences ["api://myapp"]] _)
            (errorString "dial tcp: no route to host") _).
  - discriminate.
  - reflexivity.
Defined.

(** X4 at [goodToken]. *)
Lemma validated_claims_sound_witness :
  (Issuer aliceClaims = "https://sts.windows.net/" +:+ "contoso" +:+ "/"
   ∨ Issuer aliceClaims
     = "https://login.microsoftonline.com/" +:+ "contoso" +:+ "/v2.0")
  ∧ (WithoutAudienceValidation ∉ [WithAudiences ["api://myapp"]] →
     ∃ a, a ∈ Audience aliceClaims ∧ a ∈ validAudiences contoso).
Proof.
  refine (validated_claims_sound DecodeSegment json_Unmarshal Verify Validate
            keyfunc_NewDefaultCtx zap_NewProduction "contoso"
            [WithAudiences ["api://myapp"]] contoso goodToken aliceClaims
            _ _).
  - reflexivity.
  - vm_compute. reflexivity.
Defined.


(** X7 at the empty string. *)
Lemma validateToken_wrong_segment_count_witness :
  validate contoso ""
  = (Err (wrapErrors
            "failed to parse token: token is malformed: token contains an invalid number of segments"
            [ErrTokenParsingFailed]),
     []).
Proof.
  refine (validateToken_wrong_segment_count DecodeSegment json_Unmarshal
            Verify Validate contoso "" _).
  vm_compute. discriminate.
Defined.

(** X8 at [goodToken] for the validator without keys. *)
Lemma validateToken_unresolved_key_witness :
  validate noKeys goodToken
  = (Err (wrapErrors
            ("failed to parse token: token is unverifiable: error while executing keyfunc: "
               +:+ Error (errorString "key not found: k2"))
            [ErrTokenParsingFailed]),
     [KeyfuncCalled JwksV2 (aliceToken "signed-by-key2" false);
      KeyfuncCalled JwksV1 (aliceToken "signed-by-key2" false)]).
Proof.
  refine (validateToken_unresolved_key DecodeSegment json_Unmarshal Verify
            Validate noKeys goodToken unverifiedAlice goodParts
            "signed-by-key2" (errorString "key not found: k2")
            (errorString "key not found: k2") _ _ _ _ _);
    vm_compute; reflexivity.
Defined.

(** X9 at [goodToken] when every token is expired. *)
Lemma validateToken_invalid_claims_witness :
  value (validateToken DecodeSegment json_Unmarshal Verify expired contoso
           goodToken)
  = Err (wrapErrors
           ("failed to parse token: token has invalid claims: "
              +:+ Error (errorString "token is expired"))
           [ErrTokenParsingFailed])
  ∧ VerifyCalled "RS256" (GoStrings.Join (firstn 2 goodParts) ".")
      "signed-by-key2"
    ∈ events (validateToken DecodeSegment json_Unmarshal Verify expired
                contoso goodToken).
Proof.
  refine (validateToken_invalid_claims DecodeSegment json_Unmarshal Verify
            expired contoso goodToken unverifiedAlice goodParts
            "signed-by-key2" "key2" (errorString "token is expired")
            _ _ _ _ _ _);
    vm_compute; reflexivity.
Defined.

(** X10 at [evilToken]. *)
Lemma validateToken_error_taxonomy_witness :
  errors_Is
    (wrapErrors
       "invalid token issuer. Received: https://evil.example/contoso/v2.0"
       [ErrInvalidIssuer]) ErrTokenInvalid = false
  ∧ errors_Is
      (wrapErrors
         "invalid token issuer. Received: https://evil.example/contoso/v2.0"
         [ErrInvalidIssuer]) ErrMissingAuthHeader = false
  ∧ errors_Is
      (wrapErrors
         "invalid token issuer. Received: https://evil.example/contoso/v2.0"
         [ErrInvalidIssuer]) ErrInvalidAuthHeaderFormat = false.
Proof.
  refine (proj2 (validateToken_error_taxonomy DecodeSegment json_Unmarshal
                   Verify Validate contoso evilToken _ _)).
  vm_compute. reflexivity.
Defined.

(** X1 at a request that carries [goodToken]. *)
Lemma Middleware_success_forwards_witness :
  Middleware DecodeSegment json_Unmarshal Verify Validate contoso teapot
    (request ["Bearer " +:+ goodToken])
  = (tt,
     events (validate contoso goodToken)
       ++ [LoggerInfo (Some 0) "Token validated" aliceClaims]
       ++ [RespondError
             (mkProblem (errorString "downstream") 418 "/api/protected")]).
Proof.
  refine (proj1 (Middleware_success_forwards DecodeSegment json_Unmarshal
                   Verify Validate contoso teapot
                   (request ["Bearer " +:+ goodToken]) goodToken aliceClaims
                   _ _)).
  - reflexivity.
  - vm_compute. reflexivity.
Defined.

(** X2 at a request that carries [evilToken]. *)
Lemma Middleware_failure_skips_next_witness :
  Middleware DecodeSegment json_Unmarshal Verify Validate contoso next
    (request ["Bearer " +:+ evilToken])
  = Middleware DecodeSegment json_Unmarshal Verify Validate contoso teapot
      (request ["Bearer " +:+ evilToken]).
Proof.
  refine (Middleware_failure_skips_next DecodeSegment json_Unmarshal Verify
            Validate contoso next teapot (request ["Bearer " +:+ evilToken])
            _).
  intros (tokenString & claims & Hx & Hv).
  vm_compute in Hx. injection Hx as <-.
  vm_compute in Hv. discriminate.
Defined.

End ScenarioMore.
